(** * Uptime dashboard: status reconciliation, aggregation and session scoping

    A shallow embedding of the Python sources

      - [services/uptime_kuma.py]   (module [Kuma]),
      - [services/uptime_robot.py]  (module [Robot]),
      - [app.py]                    (module [App]),

    followed by the properties proved about them.

    Conventions.  Pure helpers are Rocq functions.  Code that talks to a
    backend runs in a state-and-exception monad (module [Eff]) whose state logs
    every call that leaves the process; the backends themselves are arbitrary
    functions from the log so far and the call's arguments to an answer, so a
    statement about every such function is a statement about every behaviour
    of the backend.  A dict with a fixed set of keys is a record whose fields
    are options ([None]: the key is missing).  Floats are IEEE-754 binary64
    values in the exact form of [SpecFloat].  Logging is left out.  Each
    definition keeps the name of the Python function it renders and quotes the
    Python it stands for. *)

From Stdlib Require Import ZArith List String Ascii Lia Permutation Sorted.
From Stdlib Require Import SpecFloat DecimalString.
From stdpp Require Import base gmap sets list strings.

Open Scope Z_scope.

(** ** Python primitives *)

Module Py.

(** *** Floats: IEEE-754 binary64, as the exact specification of [SpecFloat] *)

Definition prec : Z := 53.
Definition emax : Z := 1024.

(** [float(z)]: the nearest double, ties to even. *)
Definition float_of_int (z : Z) : spec_float :=
  binary_normalize prec emax z 0 false.

(** An integer as an unrounded mantissa with exponent 0. *)
Definition exact_int (z : Z) : spec_float :=
  match z with
  | Z0 => S754_zero false
  | Zpos p => S754_finite false p 0
  | Zneg p => S754_finite true p 0
  end.

(** [a / b] on two [int]s: the correctly rounded quotient; [None] stands for
    [ZeroDivisionError]. *)
Definition true_div (a b : Z) : option spec_float :=
  if b =? 0 then None else Some (SFdiv prec emax (exact_int a) (exact_int b)).

(** [x * y] on floats. *)
Definition float_mul (x y : spec_float) : spec_float := SFmul prec emax x y.

(** [str(z)] for an [int]. *)
Definition str_of_int (z : Z) : string := NilZero.string_of_int (Z.to_int z).

(** [num / den] ([den > 0], [num >= 0]) rounded to the nearest integer, ties to
    even: the rounding of [format(x, '.Nf')]. *)
Definition round_half_even (num den : Z) : Z :=
  let q := num / den in
  let r := num mod den in
  match 2 * r ?= den with
  | Lt => q
  | Gt => q + 1
  | Eq => if Z.even q then q else q + 1
  end.

(** [m * 2^e * 10^d], rounded to an integer. *)
Definition scaled_round (d : nat) (m : positive) (e : Z) : Z :=
  match e with
  | Zneg p => round_half_even (Zpos m * 10 ^ Z.of_nat d) (2 ^ Zpos p)
  | _ => Zpos m * 2 ^ e * 10 ^ Z.of_nat d
  end.

Definition digit (n : Z) : ascii := ascii_of_nat (48 + Z.to_nat n).

(** The [d] low decimal digits of [n], most significant first. *)
Fixpoint frac_digits (d : nat) (n : Z) : string :=
  match d with
  | O => EmptyString
  | S d' => frac_digits d' (n / 10) +:+ String (digit (n mod 10)) EmptyString
  end.

(** The decimal numeral of [n / 10^d] with [d] decimals. *)
Definition fixed (d : nat) (n : Z) : string :=
  str_of_int (n / 10 ^ Z.of_nat d) +:+
  match d with
  | O => ""
  | _ => "." +:+ frac_digits d (n mod 10 ^ Z.of_nat d)
  end.

Definition sign (s : bool) : string := if s then "-" else "".

(** [f"{x:.<d>f}"]. *)
Definition format_f (d : nat) (x : spec_float) : string :=
  match x with
  | S754_nan => "nan"
  | S754_infinity s => sign s +:+ "inf"
  | S754_zero s => sign s +:+ fixed d 0
  | S754_finite s m e => sign s +:+ fixed d (scaled_round d m e)
  end.

(** *** Integers and lists *)

(** [sum(l)] on [int]s. *)
Definition sum (l : list Z) : Z := fold_left Z.add l 0.

(** [len(l)]. *)
Definition len {A} (l : list A) : Z := Z.of_nat (length l).

(** [l[-1]] on a list known to be non-empty; [d] is never returned then. *)
Definition last_item {A} (l : list A) (d : A) : A := List.last l d.

Section Sorted.
Context {A : Type} (key : A -> Z).

(** One step of a stable insertion into a list that is descending by [key]:
    [x], which stood before every element of [l], stays before those with an
    equal key. *)
Fixpoint insert_desc (x : A) (l : list A) : list A :=
  match l with
  | [] => [x]
  | y :: l' => if key y <=? key x then x :: l else y :: insert_desc x l'
  end.

(** [sorted(l, key=key, reverse=True)]: descending by [key], stable. *)
Definition sorted_reverse (l : list A) : list A := fold_right insert_desc [] l.
End Sorted.

(** *** Strings (bytes; case mapping on ASCII letters) *)

Definition lower_ascii (c : ascii) : ascii :=
  let n := nat_of_ascii c in
  if ((65 <=? n) && (n <=? 90))%nat then ascii_of_nat (n + 32) else c.

Definition upper_ascii (c : ascii) : ascii :=
  let n := nat_of_ascii c in
  if ((97 <=? n) && (n <=? 122))%nat then ascii_of_nat (n - 32) else c.

Fixpoint map_string (f : ascii -> ascii) (s : string) : string :=
  match s with
  | EmptyString => EmptyString
  | String c s' => String (f c) (map_string f s')
  end.

(** [s.lower()] and [s.upper()]. *)
Definition lower (s : string) : string := map_string lower_ascii s.
Definition upper (s : string) : string := map_string upper_ascii s.

(** [sub in s]. *)
Fixpoint contains (sub s : string) : bool :=
  String.prefix sub s ||
  match s with
  | EmptyString => false
  | String _ s' => contains sub s'
  end.

(** [sep.join(l)]. *)
Fixpoint join (sep : string) (l : list string) : string :=
  match l with
  | [] => ""
  | [x] => x
  | x :: l' => x +:+ sep +:+ join sep l'
  end.

(** Truthiness of a [str] and of an optional [str]. *)
Definition truthy_str (s : string) : bool := negb (String.eqb s "").
Definition truthy_opt_str (s : option string) : bool :=
  match s with
  | Some s => truthy_str s
  | None => false
  end.

(** Truthiness of an [int]. *)
Definition truthy_int (z : Z) : bool := negb (z =? 0).

(** [list(set(l))].  The iteration order of a Python set is unspecified; the
    model fixes one, and nothing proved below depends on it. *)
Definition list_of_set `{Countable A} (l : list A) : list A :=
  elements (list_to_set l : gset A).

End Py.

(** ** Effects: exceptions, the log of backend calls, and the monad *)

Module Eff.

(** The exception classes the sources raise or catch.  [OtherException] stands
    for every other subclass of [Exception] (what a library call may raise). *)
Inductive Exn : Type :=
| ValueError (msg : string)
| ImportError (msg : string)
| UptimeRobotException (msg : string)
| UptimeKumaException (msg : string)
| OtherException (msg : string).

(** [str(e)]. *)
Definition str_exn (e : Exn) : string :=
  match e with
  | ValueError msg
  | ImportError msg
  | UptimeRobotException msg
  | UptimeKumaException msg
  | OtherException msg => msg
  end.

Inductive result (A : Type) : Type :=
| Ok (a : A)
| Raise (e : Exn).
Arguments Ok {A} a.
Arguments Raise {A} e.

(** A value of a form-encoded payload or of a call's argument list. *)
Inductive FormVal : Type :=
| FStr (s : string)
| FInt (z : Z).

(** An [UptimeKumaApi] object, by the order of its construction. *)
Definition Handle : Type := nat.

(** What leaves the process.  [HttpPost] is one [requests.post] to Uptime
    Robot; the [Api*] events are calls into [uptime_kuma_api], with the flag of
    [ApiConnect]/[ApiLogin] telling whether the call returned ([true]) or
    raised. *)
Inductive Event : Type :=
| HttpPost (endpoint : string) (payload : gmap string FormVal)
| ApiConnect (h : Handle) (ok : bool)
| ApiLogin (h : Handle) (ok : bool)
| ApiCall (h : Handle) (method : string) (args : list FormVal)
| ApiDisconnect (h : Handle).

(** The mutable state: the calls made so far, the number of API objects
    constructed so far, and the [_api] attribute of the [UptimeKumaService]
    object in use. *)
Record State : Type := mkState {
  trace : list Event;
  next_handle : Handle;
  _api : option Handle
}.

Definition M (A : Type) : Type := State -> result A * State.

Definition ret {A} (a : A) : M A := fun st => (Ok a, st).

Definition bind {A B} (m : M A) (k : A -> M B) : M B :=
  fun st =>
    match m st with
    | (Ok a, st') => k a st'
    | (Raise e, st') => (Raise e, st')
    end.

Definition raise {A} (e : Exn) : M A := fun st => (Raise e, st).

(** [try: body  except Exception as e: handler(e)]. *)
Definition try_except {A} (body : M A) (handler : Exn -> M A) : M A :=
  fun st =>
    match body st with
    | (Raise e, st') => handler e st'
    | r => r
    end.

(** [try: body  finally: cleanup]; an exception of [cleanup] replaces the
    outcome of [body]. *)
Definition try_finally {A} (body : M A) (cleanup : M unit) : M A :=
  fun st =>
    let '(r, st1) := body st in
    match cleanup st1 with
    | (Ok _, st2) => (r, st2)
    | (Raise e, st2) => (Raise e, st2)
    end.

(** The recurring shape

      x = None
      try:
          x = acquire()
          body(x)
      except Exception as e:
          handler(e)
      finally:
          cleanup(x)

    where [cleanup] sees the local [x]: [None] when [acquire] raised. *)
Definition scoped {X A} (acquire : M X) (body : X -> M A)
    (handler : Exn -> M A) (cleanup : option X -> M unit) : M A :=
  fun st =>
    match acquire st with
    | (Raise e, st1) => try_finally (handler e) (cleanup None) st1
    | (Ok x, st1) => try_finally (try_except (body x) handler) (cleanup (Some x)) st1
    end.

Definition log (e : Event) : M unit :=
  fun st => (Ok tt, mkState (trace st ++ [e]) (next_handle st) (_api st)).

Definition get_trace : M (list Event) := fun st => (Ok (trace st), st).

Definition get_api_attr : M (option Handle) := fun st => (Ok (_api st), st).

Definition set_api_attr (v : option Handle) : M unit :=
  fun st => (Ok tt, mkState (trace st) (next_handle st) v).

(** stdpp's monadic notations: [x ← m; k] and [m;; k]. *)
#[global] Instance M_ret : MRet M := @ret.
#[global] Instance M_bind : MBind M := fun A B k m => bind m k.

End Eff.

(** ** [services/uptime_kuma.py] *)

Module Kuma.
Import Eff.

(** *** Data *)

Definition STATUS_DOWN : Z := 0.
Definition STATUS_UP : Z := 1.
Definition STATUS_PENDING : Z := 2.
Definition STATUS_MAINTENANCE : Z := 3.

(** One heartbeat dict.  [None] is what [beat.get(key)] returns when the key is
    missing or null; [ping] is in integer milliseconds and [time] an integer
    timestamp. *)
Record Heartbeat : Type := mkHeartbeat {
  hb_status : option Z;
  hb_ping : option Z;
  hb_time : option Z
}.

(** A dict entry that the code tests both for presence and for [None]. *)
Inductive field (A : Type) : Type :=
| Absent
| Null
| Present (a : A).
Arguments Absent {A}.
Arguments Null {A}.
Arguments Present {A} a.

(** A raw monitor dict as [uptime_kuma_api] returns it, restricted to the keys
    the service reads; [None] is a missing key.  [active] is a boolean when
    present.  [m_heartbeats] is the ['_heartbeats'] entry that the service
    itself adds. *)
Record RawMonitor : Type := mkRawMonitor {
  m_id : option Z;
  m_name : option string;
  m_url : option string;
  m_type : option string;
  m_active : option bool;
  m_interval : option Z;
  m_status : field Z;
  m_heartbeats : option (list Heartbeat)
}.

(** The dict built by [_format_monitor], key [k] as field [f_k]. *)
Record Monitor : Type := mkMonitor {
  f_id : option Z;
  f_name : string;
  f_url : string;
  f_status : bool;
  f_uptime : string;
  f_uptime_24h : string;
  f_uptime_7d : string;
  f_uptime_30d : string;
  f_response_time : string;
  f_avg_response_time : string;
  f_type : string;
  f_active : bool;
  f_interval : Z;
  f_custom_uptime_ratio : string;
  f_custom_uptime_ranges : list string;
  f_logs : list Heartbeat
}.

(** A status page dict. *)
Record StatusPage : Type := mkStatusPage {
  sp_slug : option string;
  sp_title : option string;
  sp_description : option string
}.

(** The keyword arguments of [edit_monitor]; [None] is an argument that is not
    given or is [None]. *)
Record MonitorPatch : Type := mkMonitorPatch {
  p_name : option string;
  p_url : option string;
  p_type : option string;
  p_active : option bool;
  p_interval : option Z
}.

(** *** Pure helpers *)

(** [beat.get('status') == code]. *)
Definition status_is (code : Z) (beat : Heartbeat) : bool :=
  match hb_status beat with
  | Some s => s =? code
  | None => false
  end.

(** [_calculate_uptime_from_heartbeats]; the last branch is its
    [except Exception]. *)
Definition _calculate_uptime_from_heartbeats (heartbeats : list Heartbeat) : string :=
  match heartbeats with
  | [] => "N/A"
  | _ =>
      let total_checks := Py.len heartbeats in
      let successful_checks :=
        Py.sum (map (fun _ => 1) (List.filter (status_is 1) heartbeats)) in
      if total_checks =? 0 then "N/A"
      else
        match Py.true_div successful_checks total_checks with
        | Some ratio => Py.format_f 2 (Py.float_mul ratio (Py.float_of_int 100))
        | None => "N/A"
        end
  end.

(** [lambda x: x.get('time', 0)]. *)
Definition time_key (x : Heartbeat) : Z := default 0 (hb_time x).

(** [sorted(heartbeats, key=lambda x: x.get('time', 0), reverse=True)[0]]. *)
Definition most_recent (heartbeats : list Heartbeat) : option Heartbeat :=
  head (Py.sorted_reverse time_key heartbeats).

(** The fallback of [_determine_status_from_heartbeats]: the monitor's own
    status field, else DOWN. *)
Definition status_field_verdict (monitor : RawMonitor) : bool :=
  match m_status monitor with
  | Present status_code => status_code =? STATUS_UP
  | _ => false
  end.

(** [_determine_status_from_heartbeats]: [true] is UP, [false] is DOWN. *)
Definition _determine_status_from_heartbeats
    (monitor : RawMonitor) (heartbeats : list Heartbeat) : bool :=
  if negb (default true (m_active monitor)) then false
  else
    match heartbeats with
    | [] => status_field_verdict monitor
    | _ =>
        match Py.sorted_reverse time_key heartbeats with
        | [] => status_field_verdict monitor
        | most_recent :: _ =>
            match hb_status most_recent with
            | Some 1 => true
            | Some 0 => false
            | Some 2 => false
            | _ => status_field_verdict monitor
            end
        end
    end.

Definition type_map : gmap string string :=
  list_to_map
    [ ("http", "HTTP(s)"); ("https", "HTTP(s)"); ("port", "Port");
      ("ping", "Ping"); ("keyword", "Keyword"); ("dns", "DNS");
      ("docker", "Docker"); ("push", "Push"); ("steam", "Steam");
      ("gamedig", "GameDig"); ("mqtt", "MQTT"); ("sqlserver", "SQL Server");
      ("postgres", "PostgreSQL"); ("mysql", "MySQL"); ("mongodb", "MongoDB");
      ("radius", "RADIUS") ].

(** [_get_monitor_type]. *)
Definition _get_monitor_type (type_value : option string) : string :=
  match type_value with
  | Some t => default (Py.upper t) (type_map !! Py.lower t)
  | None => "HTTP(s)"
  end.

(** [beat.get('ping') is not None and beat.get('ping') > 0]. *)
Definition positive_ping (beat : Heartbeat) : bool :=
  match hb_ping beat with
  | Some p => 0 <? p
  | None => false
  end.

(** The list comprehension [ping_values] of [_format_monitor]. *)
Definition ping_values (heartbeats : list Heartbeat) : list Z :=
  map (fun beat => default 0 (hb_ping beat)) (List.filter positive_ping heartbeats).

(** The pair [(avg_response_time, current_response_time)] of
    [_format_monitor].  The division is by the length of a non-empty list, so
    its [None] branch is never taken. *)
Definition response_times (heartbeats : list Heartbeat) : string * string :=
  match heartbeats with
  | [] => ("N/A", "N/A")
  | _ =>
      match ping_values heartbeats with
      | [] => ("N/A", "N/A")
      | pings =>
          match Py.true_div (Py.sum pings) (Py.len pings) with
          | Some mean =>
              (Py.format_f 0 mean,
               Py.format_f 0 (Py.float_of_int (Py.last_item pings 0)))
          | None => ("N/A", "N/A")
          end
      end
  end.

(** [_format_monitor]. *)
Definition _format_monitor (monitor : RawMonitor) : Monitor :=
  let monitor_name := default "Unknown" (m_name monitor) in
  let heartbeats := default [] (m_heartbeats monitor) in
  let uptime_24h := _calculate_uptime_from_heartbeats heartbeats in
  let uptime_30d := uptime_24h in
  let '(avg_response_time, current_response_time) := response_times heartbeats in
  let is_up := _determine_status_from_heartbeats monitor heartbeats in
  let monitor_type := _get_monitor_type (m_type monitor) in
  {| f_id := m_id monitor;
     f_name := monitor_name;
     f_url := default "N/A" (m_url monitor);
     f_status := is_up;
     f_uptime := uptime_24h;
     f_uptime_24h := uptime_24h;
     f_uptime_7d := uptime_24h;
     f_uptime_30d := uptime_30d;
     f_response_time := current_response_time;
     f_avg_response_time := avg_response_time;
     f_type := monitor_type;
     f_active := default true (m_active monitor);
     f_interval := default 60 (m_interval monitor);
     f_custom_uptime_ratio := uptime_24h;
     f_custom_uptime_ranges := [uptime_24h; uptime_24h; uptime_30d];
     f_logs := match heartbeats with [] => [] | _ => firstn 20 heartbeats end |}.

(** [monitor['_heartbeats'] = heartbeats]. *)
Definition set_heartbeats (monitor : RawMonitor) (heartbeats : list Heartbeat) : RawMonitor :=
  {| m_id := m_id monitor; m_name := m_name monitor; m_url := m_url monitor;
     m_type := m_type monitor; m_active := m_active monitor;
     m_interval := m_interval monitor; m_status := m_status monitor;
     m_heartbeats := Some heartbeats |}.

(** The update loop of [edit_monitor]: every keyword argument that is not
    [None] overwrites the monitor's entry. *)
Definition apply_patch (monitor : RawMonitor) (kwargs : MonitorPatch) : RawMonitor :=
  let over {A} (new old : option A) : option A :=
    match new with Some v => Some v | None => old end in
  {| m_id := m_id monitor;
     m_name := over (p_name kwargs) (m_name monitor);
     m_url := over (p_url kwargs) (m_url monitor);
     m_type := over (p_type kwargs) (m_type monitor);
     m_active := over (p_active kwargs) (m_active monitor);
     m_interval := over (p_interval kwargs) (m_interval monitor);
     m_status := m_status monitor;
     m_heartbeats := m_heartbeats monitor |}.

(** [s.rstrip('/')]. *)
Fixpoint rstrip_slash (s : string) : string :=
  match s with
  | EmptyString => EmptyString
  | String c s' =>
      let r := rstrip_slash s' in
      if Ascii.eqb c "/" && String.eqb r "" then EmptyString else String c r
  end.


(** *** The [uptime_kuma_api] library, as the service sees it *)

(** The outcome of a library call. *)
Inductive Reply (A : Type) : Type :=
| Returns (a : A)
| Raises (msg : string).
Arguments Returns {A} a.
Arguments Raises {A} msg.

(** How the library and the server behind it answer: each answer may depend on
    the calls made so far and on the call's arguments.  [installed] tells
    whether [from uptime_kuma_api import UptimeKumaApi] succeeds. *)
Record Library : Type := mkLibrary {
  installed : bool;
  api_connect : list Event -> string -> Reply unit;
  api_login : list Event -> string -> string -> Reply unit;
  api_get_monitors : list Event -> Reply (list RawMonitor);
  api_get_monitor_beats : list Event -> Z -> Z -> Reply (list Heartbeat);
  api_get_monitor : list Event -> Z -> Reply RawMonitor;
  api_add_monitor :
    list Event -> string -> string -> option string -> list (string * FormVal) ->
    Reply RawMonitor;
  api_edit_monitor : list Event -> Z -> RawMonitor -> Reply unit;
  api_delete_monitor : list Event -> Z -> Reply unit;
  api_get_status_pages : list Event -> Reply (list StatusPage);
  api_get_status_page : list Event -> string -> Reply StatusPage;
  api_add_status_page :
    list Event -> string -> string -> list (string * FormVal) -> Reply StatusPage;
  api_save_status_page : list Event -> string -> list (string * FormVal) -> Reply unit;
  api_delete_status_page : list Event -> string -> Reply unit;
  api_disconnect : list Event -> Reply unit
}.

(** The attributes of an [UptimeKumaService] set once by [__init__]; the
    mutable [_api] is in the state. *)
Record Service : Type := mkService {
  url : string;
  username : string;
  password : string
}.

(** Run a library call: log [ev], then return or raise as the library answers. *)
Definition invoke {A} (ev : Event) (answer : list Event -> Reply A) : M A :=
  fun st =>
    let st' := mkState (trace st ++ [ev]) (next_handle st) (_api st) in
    match answer (trace st) with
    | Returns a => (Ok a, st')
    | Raises msg => (Raise (OtherException msg), st')
    end.

(** [UptimeKumaApi(url)]: a new API object, or the exception of its
    constructor. *)
Definition new_api (lib : Library) (u : string) : M Handle :=
  fun st =>
    let h := next_handle st in
    match api_connect lib (trace st) u with
    | Returns _ => (Ok h, mkState (trace st ++ [ApiConnect h true]) (S h) (_api st))
    | Raises msg =>
        (Raise (OtherException msg), mkState (trace st ++ [ApiConnect h false]) (S h) (_api st))
    end.

(** [api.login(username, password)]. *)
Definition login (lib : Library) (h : Handle) (user pw : string) : M unit :=
  fun st =>
    match api_login lib (trace st) user pw with
    | Returns _ => (Ok tt, mkState (trace st ++ [ApiLogin h true]) (next_handle st) (_api st))
    | Raises msg =>
        (Raise (OtherException msg),
         mkState (trace st ++ [ApiLogin h false]) (next_handle st) (_api st))
    end.

(** [__init__]. *)
Definition init (u user pw : string) : M Service :=
  if negb (Py.truthy_str u && Py.truthy_str user && Py.truthy_str pw)
  then raise (ValueError "URL, username, and password are required")
  else
    set_api_attr None;;
    mret {| url := rstrip_slash u; username := user; password := pw |}.

Section Methods.
Context (lib : Library) (self : Service).

(** [_get_api]. *)
Definition _get_api : M Handle :=
  cached ← get_api_attr;
  match cached with
  | Some api => mret api
  | None =>
      try_except
        (if installed lib then
           api ← new_api lib (url self);
           login lib api (username self) (password self);;
           set_api_attr (Some api);;
           mret api
         else raise (ImportError "No module named 'uptime_kuma_api'"))
        (fun e =>
           match e with
           | ImportError _ =>
               raise (UptimeKumaException
                 "uptime-kuma-api library not installed. Run: pip install uptime-kuma-api")
           | _ =>
               let error_msg := Py.lower (str_exn e) in
               if Py.contains "login" error_msg || Py.contains "auth" error_msg then
                 raise (UptimeKumaException
                   ("Authentication failed - Check username and password: " +:+ str_exn e))
               else if Py.contains "connect" error_msg || Py.contains "connection" error_msg then
                 raise (UptimeKumaException
                   ("Cannot connect to " +:+ url self +:+
                    " - Check URL and ensure Uptime Kuma is running: " +:+ str_exn e))
               else
                 raise (UptimeKumaException ("Failed to initialize API: " +:+ str_exn e))
           end)
  end.

(** [_disconnect]. *)
Definition _disconnect : M unit :=
  current ← get_api_attr;
  match current with
  | Some api =>
      try_finally
        (try_except
           (invoke (ApiDisconnect api) (api_disconnect lib))
           (fun _ => mret tt))
        (set_api_attr None)
  | None => mret tt
  end.

(** The two [except] clauses shared by the public methods:
    [except UptimeKumaException: raise] and
    [except Exception as e: raise UptimeKumaException(f"{what}: {e}")]. *)
Definition reraise {A} (what : string) (e : Exn) : M A :=
  match e with
  | UptimeKumaException _ => raise e
  | _ => raise (UptimeKumaException (what +:+ ": " +:+ str_exn e))
  end.

(** [finally: if api: self._disconnect()]. *)
Definition release (api : option Handle) : M unit :=
  match api with
  | Some _ => _disconnect
  | None => mret tt
  end.

(** The inner [try] of [get_monitors] for one monitor: fetch its heartbeats
    when it has a truthy id; on any exception record none. *)
Definition attach_heartbeats (api : Handle) (monitor : RawMonitor) : M RawMonitor :=
  try_except
    (match m_id monitor with
     | Some monitor_id =>
         if Py.truthy_int monitor_id then
           heartbeats ←
             invoke (ApiCall api "get_monitor_beats" [FInt monitor_id; FInt 24])
                    (fun tr => api_get_monitor_beats lib tr monitor_id 24);
           mret (set_heartbeats monitor heartbeats)
         else mret monitor
     | None => mret monitor
     end)
    (fun _ => mret (set_heartbeats monitor [])).

(** The [for] loop of [get_monitors]. *)
Fixpoint format_all (api : Handle) (monitors_data : list RawMonitor) : M (list Monitor) :=
  match monitors_data with
  | [] => mret []
  | monitor :: rest =>
      monitor' ← attach_heartbeats api monitor;
      monitors ← format_all api rest;
      mret (_format_monitor monitor' :: monitors)
  end.

(** [get_monitors]. *)
Definition get_monitors : M (list Monitor) :=
  scoped _get_api
    (fun api =>
       monitors_data ← invoke (ApiCall api "get_monitors" []) (api_get_monitors lib);
       format_all api monitors_data)
    (reraise "Failed to get monitors")
    release.

(** [get_monitor]. *)
Definition get_monitor (monitor_id : Z) : M Monitor :=
  if negb (Py.truthy_int monitor_id) then raise (ValueError "Monitor ID is required")
  else
    scoped _get_api
      (fun api =>
         monitor ← invoke (ApiCall api "get_monitor" [FInt monitor_id])
                          (fun tr => api_get_monitor lib tr monitor_id);
         monitor' ←
           try_except
             (heartbeats ←
                invoke (ApiCall api "get_monitor_beats" [FInt monitor_id; FInt 24])
                       (fun tr => api_get_monitor_beats lib tr monitor_id 24);
              mret (set_heartbeats monitor heartbeats))
             (fun _ => mret (set_heartbeats monitor []));
         mret (_format_monitor monitor'))
      (reraise "Failed to get monitor")
      release.

(** [add_monitor]. *)
Definition add_monitor (name : string) (url : option string) (monitor_type : string)
    (kwargs : list (string * FormVal)) : M Monitor :=
  if negb (Py.truthy_str name) then raise (ValueError "Monitor name is required")
  else if bool_decide (Py.lower monitor_type ∈ ["http"; "https"])
          && negb (Py.truthy_opt_str url)
  then raise (ValueError "URL is required for HTTP monitors")
  else
    scoped _get_api
      (fun api =>
         monitor ←
           invoke (ApiCall api "add_monitor" [FStr monitor_type; FStr name])
                  (fun tr => api_add_monitor lib tr monitor_type name url kwargs);
         mret (_format_monitor monitor))
      (reraise "Failed to add monitor")
      release.

(** [edit_monitor]. *)
Definition edit_monitor (monitor_id : Z) (kwargs : MonitorPatch) : M bool :=
  if negb (Py.truthy_int monitor_id) then raise (ValueError "Monitor ID is required")
  else
    scoped _get_api
      (fun api =>
         monitor ← invoke (ApiCall api "get_monitor" [FInt monitor_id])
                          (fun tr => api_get_monitor lib tr monitor_id);
         invoke (ApiCall api "edit_monitor" [FInt monitor_id])
                (fun tr => api_edit_monitor lib tr monitor_id (apply_patch monitor kwargs));;
         mret true)
      (reraise "Failed to edit monitor")
      release.

(** [delete_monitor]. *)
Definition delete_monitor (monitor_id : Z) : M bool :=
  if negb (Py.truthy_int monitor_id) then raise (ValueError "Monitor ID is required")
  else
    scoped _get_api
      (fun api =>
         invoke (ApiCall api "delete_monitor" [FInt monitor_id])
                (fun tr => api_delete_monitor lib tr monitor_id);;
         mret true)
      (reraise "Failed to delete monitor")
      release.

Definition only_active (b : bool) : MonitorPatch :=
  {| p_name := None; p_url := None; p_type := None; p_active := Some b;
     p_interval := None |}.

(** [pause_monitor] and [resume_monitor]. *)
Definition pause_monitor (monitor_id : Z) : M bool :=
  edit_monitor monitor_id (only_active false).
Definition resume_monitor (monitor_id : Z) : M bool :=
  edit_monitor monitor_id (only_active true).

(** [get_status_pages]. *)
Definition get_status_pages : M (list StatusPage) :=
  scoped _get_api
    (fun api => invoke (ApiCall api "get_status_pages" []) (api_get_status_pages lib))
    (reraise "Failed to get status pages")
    release.

(** [get_status_page]. *)
Definition get_status_page (slug : string) : M StatusPage :=
  if negb (Py.truthy_str slug) then raise (ValueError "Slug is required")
  else
    scoped _get_api
      (fun api =>
         invoke (ApiCall api "get_status_page" [FStr slug])
                (fun tr => api_get_status_page lib tr slug))
      (reraise "Failed to get status page")
      release.

(** [add_status_page]. *)
Definition add_status_page (slug title : string) (kwargs : list (string * FormVal))
    : M StatusPage :=
  if negb (Py.truthy_str slug) || negb (Py.truthy_str title)
  then raise (ValueError "Slug and title are required")
  else
    scoped _get_api
      (fun api =>
         invoke (ApiCall api "add_status_page" [FStr slug; FStr title])
                (fun tr => api_add_status_page lib tr slug title kwargs))
      (reraise "Failed to add status page")
      release.

(** [save_status_page]. *)
Definition save_status_page (slug : string) (kwargs : list (string * FormVal)) : M bool :=
  if negb (Py.truthy_str slug) then raise (ValueError "Slug is required")
  else
    scoped _get_api
      (fun api =>
         invoke (ApiCall api "save_status_page" [FStr slug])
                (fun tr => api_save_status_page lib tr slug kwargs);;
         mret true)
      (reraise "Failed to save status page")
      release.

(** [delete_status_page]. *)
Definition delete_status_page (slug : string) : M bool :=
  if negb (Py.truthy_str slug) then raise (ValueError "Slug is required")
  else
    scoped _get_api
      (fun api =>
         invoke (ApiCall api "delete_status_page" [FStr slug])
                (fun tr => api_delete_status_page lib tr slug);;
         mret true)
      (reraise "Failed to delete status page")
      release.

(** [get_status_text]. *)
Definition get_status_text (status_code : Z) : string :=
  if status_code =? STATUS_DOWN then "Down"
  else if status_code =? STATUS_UP then "Up"
  else if status_code =? STATUS_PENDING then "Pending"
  else if status_code =? STATUS_MAINTENANCE then "Maintenance"
  else "Unknown".

End Methods.

End Kuma.

(** ** [services/uptime_robot.py] *)

Module Robot.
Import Eff.

Definition BASE_URL : string := "https://api.uptimerobot.com/v2".
Definition DEFAULT_TIMEOUT : Z := 10.

Definition MONITOR_TYPE_HTTP : Z := 1.
Definition MONITOR_TYPE_KEYWORD : Z := 2.
Definition MONITOR_TYPE_PING : Z := 3.
Definition MONITOR_TYPE_PORT : Z := 4.

Definition STATUS_PAUSED : Z := 0.
Definition STATUS_NOT_CHECKED : Z := 1.
Definition STATUS_UP : Z := 2.
Definition STATUS_SEEMS_DOWN : Z := 8.
Definition STATUS_DOWN : Z := 9.

(** *** Data: the JSON of the Uptime Robot API, restricted to the keys read *)

Record RawMonitor : Type := mkRawMonitor {
  r_id : option Z;
  r_friendly_name : option string;
  r_url : option string;
  r_status : option Z;
  r_custom_uptime_ratio : option string;
  r_average_response_time : option string;
  r_type : option Z;
  r_interval : option Z
}.

(** The dict built by [_format_monitor]. *)
Record Monitor : Type := mkMonitor {
  f_id : option Z;
  f_name : string;
  f_url : string;
  f_status : Z;
  f_uptime_ratio : string;
  f_response_time : string;
  f_type : option Z;
  f_interval : Z
}.

(** An entry of a status page's ['monitors'] list, read with [m.get('id')]. *)
Record PspMonitor : Type := mkPspMonitor {
  pm_id : option Z
}.

(** A public status page. *)
Record Psp : Type := mkPsp {
  psp_id : option Z;
  psp_friendly_name : option string;
  psp_monitors : option (list PspMonitor)
}.

Record ErrorObj : Type := mkErrorObj {
  err_type : option string;
  err_message : option string
}.

(** A decoded response body. *)
Record Json : Type := mkJson {
  stat : option string;
  error : option ErrorObj;
  monitors : option (list RawMonitor);
  psps : option (list Psp);
  monitor : option RawMonitor;
  psp : option Psp
}.

(** What [requests.post], [raise_for_status] and [response.json()] do, by the
    [except] clause of [_make_request] that the exception reaches ([Crash]: no
    clause). *)
Inductive HttpOutcome : Type :=
| Timeout
| ConnectionError
| RequestException (msg : string)
| InvalidJson (msg : string)
| Crash (msg : string)
| Response (data : Json).

(** The Uptime Robot API: its answer to a POST, given the calls made so far,
    the endpoint and the payload. *)
Definition Http : Type := list Event -> string -> gmap string FormVal -> HttpOutcome.

Record Service : Type := mkService {
  api_key : string;
  base_url : string;
  timeout : Z
}.

(** [__init__]. *)
Definition init (key : string) (t : Z) : M Service :=
  if negb (Py.truthy_str key) then raise (ValueError "API key cannot be empty")
  else mret {| api_key := key; base_url := BASE_URL; timeout := t |}.

(** [str(x)] for a monitor id, which is an [int] or [None]. *)
Definition str_id (x : option Z) : string :=
  match x with
  | Some z => Py.str_of_int z
  | None => "None"
  end.

(** [_format_monitor]. *)
Definition _format_monitor (m : RawMonitor) : Monitor :=
  {| f_id := r_id m;
     f_name := default "Unknown" (r_friendly_name m);
     f_url := default "N/A" (r_url m);
     f_status := default 0 (r_status m);
     f_uptime_ratio := default "N/A" (r_custom_uptime_ratio m);
     f_response_time := default "N/A" (r_average_response_time m);
     f_type := r_type m;
     f_interval := default 300 (r_interval m) |}.

Section Methods.
Context (http : Http) (self : Service).

(** [_make_request]. *)
Definition _make_request (endpoint : string) (payload : gmap string FormVal) : M Json :=
  let full_payload : gmap string FormVal :=
    payload ∪ {[ "api_key" := FStr (api_key self); "format" := FStr "json" ]} in
  fun st =>
    let st' := mkState (trace st ++ [HttpPost endpoint full_payload])
                       (next_handle st) (_api st) in
    match http (trace st) endpoint full_payload with
    | Timeout =>
        (Raise (UptimeRobotException "Request timeout - Uptime Robot API not responding"), st')
    | ConnectionError =>
        (Raise (UptimeRobotException "Connection error - Cannot reach Uptime Robot API"), st')
    | RequestException msg =>
        (Raise (UptimeRobotException ("Request error: " +:+ msg)), st')
    | InvalidJson msg =>
        (Raise (UptimeRobotException ("Invalid JSON response: " +:+ msg)), st')
    | Crash msg => (Raise (OtherException msg), st')
    | Response data =>
        if bool_decide (stat data = Some "ok") then (Ok data, st')
        else
          let error_msg := default "Unknown error" (error data ≫= err_message) in
          let error_type := default "unknown" (error data ≫= err_type) in
          (Raise (UptimeRobotException
                    ("API Error (" +:+ error_type +:+ "): " +:+ error_msg)), st')
    end.

(** [get_monitors]. *)
Definition get_monitors : M (list Monitor) :=
  let payload : gmap string FormVal :=
    {[ "logs" := FStr "0"; "custom_uptime_ratios" := FStr "1-7-30";
       "response_times" := FStr "1" ]} in
  data ← _make_request "getMonitors" payload;
  mret (map _format_monitor (default [] (monitors data))).

(** [add_monitor]. *)
Definition add_monitor (name url : string) (monitor_type interval : Z)
    (kwargs : gmap string FormVal) : M (option RawMonitor) :=
  if negb (Py.truthy_str name) || negb (Py.truthy_str url)
  then raise (ValueError "Name and URL are required")
  else
    let payload : gmap string FormVal :=
      kwargs ∪ {[ "friendly_name" := FStr name; "url" := FStr url;
                  "type" := FInt monitor_type; "interval" := FInt interval ]} in
    data ← _make_request "newMonitor" payload;
    mret (monitor data).

(** [edit_monitor]. *)
Definition edit_monitor (monitor_id : Z) (kwargs : gmap string FormVal) : M bool :=
  if negb (Py.truthy_int monitor_id) then raise (ValueError "Monitor ID is required")
  else
    _make_request "editMonitor" (kwargs ∪ {[ "id" := FInt monitor_id ]});;
    mret true.

(** [delete_monitor]. *)
Definition delete_monitor (monitor_id : Z) : M bool :=
  if negb (Py.truthy_int monitor_id) then raise (ValueError "Monitor ID is required")
  else
    _make_request "deleteMonitor" {[ "id" := FInt monitor_id ]};;
    mret true.

(** [get_status_pages]. *)
Definition get_status_pages : M (list Psp) :=
  data ← _make_request "getPSPs" ∅;
  mret (default [] (psps data)).

(** [edit_status_page], with its [monitors] keyword argument (a list of ids,
    when given) apart from the other keyword arguments. *)
Definition edit_status_page (psp_id : Z) (monitor_list : option (list (option Z)))
    (kwargs : gmap string FormVal) : M bool :=
  if negb (Py.truthy_int psp_id) then raise (ValueError "Status page ID is required")
  else
    let payload : gmap string FormVal := kwargs ∪ {[ "id" := FInt psp_id ]} in
    let payload :=
      match monitor_list with
      | Some l => <[ "monitors" := FStr (Py.join "-" (map str_id l)) ]> payload
      | None => payload
      end in
    _make_request "editPSP" payload;;
    mret true.

(** [pause_monitor] and [resume_monitor]. *)
Definition pause_monitor (monitor_id : Z) : M bool :=
  edit_monitor monitor_id {[ "status" := FInt STATUS_PAUSED ]}.
Definition resume_monitor (monitor_id : Z) : M bool :=
  edit_monitor monitor_id {[ "status" := FInt STATUS_UP ]}.

(** [get_status_page]. *)
Definition get_status_page (psp_id : Z) : M Psp :=
  if negb (Py.truthy_int psp_id) then raise (ValueError "Status page ID is required")
  else
    data ← _make_request "getPSPs" {[ "psps" := FInt psp_id ]};
    match default [] (psps data) with
    | page :: _ => mret page
    | [] =>
        raise (UptimeRobotException
                 ("Status page " +:+ Py.str_of_int psp_id +:+ " not found"))
    end.

(** [add_status_page], with [monitors] a list of integer ids. *)
Definition add_status_page (friendly_name : string) (monitor_list : list Z)
    (custom_url : option string) (kwargs : gmap string FormVal) : M (option Psp) :=
  if negb (Py.truthy_str friendly_name) || negb (bool_decide (monitor_list <> []))
  then raise (ValueError "Friendly name and monitors list are required")
  else
    let payload : gmap string FormVal :=
      kwargs ∪ {[ "friendly_name" := FStr friendly_name;
                  "monitors" := FStr (Py.join "-" (map Py.str_of_int monitor_list)) ]} in
    let payload :=
      match custom_url with
      | Some u => if Py.truthy_str u then <[ "custom_url" := FStr u ]> payload else payload
      | None => payload
      end in
    data ← _make_request "newPSP" payload;
    mret (psp data).

(** [delete_status_page]. *)
Definition delete_status_page (psp_id : Z) : M bool :=
  if negb (Py.truthy_int psp_id) then raise (ValueError "Status page ID is required")
  else
    _make_request "deletePSP" {[ "id" := FInt psp_id ]};;
    mret true.

End Methods.

End Robot.

(** ** [app.py] *)

Module App.
Import Eff.

(** The configuration read from the environment when the module is loaded. *)
Record Config : Type := mkConfig {
  UPTIME_ROBOT_API_KEY : string;
  UPTIME_KUMA_URL : string;
  UPTIME_KUMA_USERNAME : string;
  UPTIME_KUMA_PASSWORD : string
}.

(** The body of a JSON response of the status-page routes: ['success'] and,
    when present, ['error']. *)
Record JsonResponse : Type := mkJsonResponse {
  success : bool;
  error : option string
}.

(** A monitor of either service, as it is serialised into the combined
    listing. *)
Inductive AnyMonitor : Type :=
| OfRobot (m : Robot.Monitor)
| OfKuma (m : Kuma.Monitor).

(** The JSON body of an add-monitors request: [data.get('monitor_ids', [])]
    reads [monitor_ids]. *)
Record AddMonitorsRequest : Type := mkAddMonitorsRequest {
  monitor_ids : option (list Z)
}.


(** The JSON body of the monitor-listing routes: ['error'], when present, and
    ['monitors']. *)
Record MonitorsResponse : Type := mkMonitorsResponse {
  mr_error : option string;
  mr_monitors : list AnyMonitor
}.

(** The JSON body of [get_status]. *)
Record StatusResponse : Type := mkStatusResponse {
  uptime_robot_configured : bool;
  uptime_kuma_configured : bool
}.

(** The answer of [get_uptime_robot_status_page_monitors]: the HTTP status
    code with the ['error'] and ['monitors'] entries of the body. *)
Record PageMonitorsResponse : Type := mkPageMonitorsResponse {
  pm_code : Z;
  pm_error : option string;
  pm_monitors : list Robot.PspMonitor
}.

Section Routes.
Context (cfg : Config) (http : Robot.Http) (lib : Kuma.Library).

(** [get_uptime_robot_service]. *)
Definition get_uptime_robot_service : M Robot.Service :=
  if negb (Py.truthy_str (UPTIME_ROBOT_API_KEY cfg))
  then raise (ValueError "Uptime Robot API key not configured")
  else Robot.init (UPTIME_ROBOT_API_KEY cfg) Robot.DEFAULT_TIMEOUT.

(** [get_uptime_kuma_service]. *)
Definition get_uptime_kuma_service : M Kuma.Service :=
  if negb (Py.truthy_str (UPTIME_KUMA_URL cfg)
           && Py.truthy_str (UPTIME_KUMA_USERNAME cfg)
           && Py.truthy_str (UPTIME_KUMA_PASSWORD cfg))
  then raise (ValueError "Uptime Kuma credentials not configured")
  else Kuma.init (UPTIME_KUMA_URL cfg) (UPTIME_KUMA_USERNAME cfg) (UPTIME_KUMA_PASSWORD cfg).

(** The body of the first [try] of [get_all_monitors]. *)
Definition fetch_uptime_robot : M (list AnyMonitor) :=
  service ← get_uptime_robot_service;
  monitors ← Robot.get_monitors http service;
  mret (map OfRobot monitors).

(** The body of the second [try] of [get_all_monitors]. *)
Definition fetch_uptime_kuma : M (list AnyMonitor) :=
  service ← get_uptime_kuma_service;
  monitors ← Kuma.get_monitors lib service;
  mret (map OfKuma monitors).

(** [get_all_monitors]: the dict handed to [jsonify]. *)
Definition get_all_monitors : M (gmap string (list AnyMonitor)) :=
  let all_monitors : gmap string (list AnyMonitor) :=
    {[ "uptime_robot" := []; "uptime_kuma" := [] ]} in
  all_monitors ←
    try_except
      (monitors ← fetch_uptime_robot;
       mret (<[ "uptime_robot" := monitors ]> all_monitors))
      (fun _ => mret all_monitors);
  all_monitors ←
    try_except
      (monitors ← fetch_uptime_kuma;
       mret (<[ "uptime_kuma" := monitors ]> all_monitors))
      (fun _ => mret all_monitors);
  mret all_monitors.

(** [next((p for p in pages if p.get('id') == page_id), None)]. *)
Definition find_page (pages : list Robot.Psp) (page_id : Z) : option Robot.Psp :=
  List.find (fun p => bool_decide (Robot.psp_id p = Some page_id)) pages.

(** [[m.get('id') for m in page.get('monitors', [])]]. *)
Definition current_monitors (page : Robot.Psp) : list (option Z) :=
  map Robot.pm_id (default [] (Robot.psp_monitors page)).

(** [add_monitors_to_uptime_robot_status_page]. *)
Definition add_monitors_to_uptime_robot_status_page
    (page_id : Z) (data : AddMonitorsRequest) : M JsonResponse :=
  try_except
    (service ← get_uptime_robot_service;
     let requested := default [] (monitor_ids data) in
     match requested with
     | [] => mret {| success := false; error := Some "No monitors specified" |}
     | _ =>
         pages ← Robot.get_status_pages http service;
         match find_page pages page_id with
         | None => mret {| success := false; error := Some "Status page not found" |}
         | Some page =>
             let updated_monitors :=
               Py.list_of_set (current_monitors page ++ map Some requested) in
             Robot.edit_status_page http service page_id (Some updated_monitors) ∅;;
             mret {| success := true; error := None |}
         end
     end)
    (fun e => mret {| success := false; error := Some (str_exn e) |}).


(** [add_monitors_to_uptime_kuma_status_page]. *)
Definition add_monitors_to_uptime_kuma_status_page (slug : string) : M JsonResponse :=
  try_except
    (mret {| success := true; error := None |})
    (fun e => mret {| success := false; error := Some (str_exn e) |}).

(** [remove_monitor_from_uptime_kuma_status_page]. *)
Definition remove_monitor_from_uptime_kuma_status_page (slug : string) : M JsonResponse :=
  try_except
    (mret {| success := true; error := None |})
    (fun e => mret {| success := false; error := Some (str_exn e) |}).

(** [get_status]. *)
Definition get_status : StatusResponse :=
  let robot_configured := Py.truthy_str (UPTIME_ROBOT_API_KEY cfg) in
  let kuma_configured :=
    Py.truthy_str (UPTIME_KUMA_URL cfg)
    && Py.truthy_str (UPTIME_KUMA_USERNAME cfg)
    && Py.truthy_str (UPTIME_KUMA_PASSWORD cfg) in
  {| uptime_robot_configured := robot_configured;
     uptime_kuma_configured := kuma_configured |}.

(** [api_uptime_robot_monitors]. *)
Definition api_uptime_robot_monitors : M MonitorsResponse :=
  try_except
    (service ← get_uptime_robot_service;
     monitors ← Robot.get_monitors http service;
     mret {| mr_error := None; mr_monitors := map OfRobot monitors |})
    (fun e =>
       match e with
       | ValueError _ =>
           mret {| mr_error := Some "API key not configured"; mr_monitors := [] |}
       | UptimeRobotException _ =>
           mret {| mr_error := Some (str_exn e); mr_monitors := [] |}
       | _ =>
           mret {| mr_error := Some ("Unexpected error: " +:+ str_exn e);
                   mr_monitors := [] |}
       end).

(** [api_uptime_kuma_monitors]. *)
Definition api_uptime_kuma_monitors : M MonitorsResponse :=
  try_except
    (service ← get_uptime_kuma_service;
     monitors ← Kuma.get_monitors lib service;
     mret {| mr_error := None; mr_monitors := map OfKuma monitors |})
    (fun e =>
       match e with
       | ValueError _ =>
           mret {| mr_error := Some "Credentials not configured"; mr_monitors := [] |}
       | UptimeKumaException _ =>
           mret {| mr_error := Some (str_exn e); mr_monitors := [] |}
       | _ =>
           mret {| mr_error := Some ("Unexpected error: " +:+ str_exn e);
                   mr_monitors := [] |}
       end).

(** [get_uptime_robot_status_page_monitors]. *)
Definition get_uptime_robot_status_page_monitors (page_id : Z) : M PageMonitorsResponse :=
  try_except
    (service ← get_uptime_robot_service;
     pages ← Robot.get_status_pages http service;
     match find_page pages page_id with
     | None =>
         mret {| pm_code := 404; pm_error := Some "Status page not found";
                 pm_monitors := [] |}
     | Some page =>
         mret {| pm_code := 200; pm_error := None;
                 pm_monitors := default [] (Robot.psp_monitors page) |}
     end)
    (fun e => mret {| pm_code := 500; pm_error := Some (str_exn e); pm_monitors := [] |}).

End Routes.

End App.

(** ** Vocabulary of the properties *)

Module Spec.
Import Eff.

(** A list in which every element's key is at most that of each element before
    it. *)
Definition descending {A} (key : A -> Z) (l : list A) : Prop :=
  StronglySorted (fun a b => key b <= key a) l.


(** The number of heartbeats whose status is exactly 1. *)
Definition up_count (heartbeats : list Kuma.Heartbeat) : nat :=
  length (List.filter (fun beat => bool_decide (Kuma.hb_status beat = Some 1)) heartbeats).


(** A status-page route's answer tells the caller that the operation is not
    supported (or was not performed): it does not report success. *)
Definition surfaced_as_not_supported (r : result App.JsonResponse) : Prop :=
  match r with
  | Ok body => App.success body = false
  | Raise _ => True
  end.

(** The state of a process that has made no call yet. *)
Definition initial_state : State := mkState [] 0%nat None.

(** The public operations of [UptimeKumaService] that open a session, with
    their arguments. *)
Inductive Op : Type :=
| GetMonitors
| GetMonitor (monitor_id : Z)
| AddMonitor (name : string) (url : option string) (monitor_type : string)
    (kwargs : list (string * FormVal))
| EditMonitor (monitor_id : Z) (kwargs : Kuma.MonitorPatch)
| DeleteMonitor (monitor_id : Z)
| PauseMonitor (monitor_id : Z)
| ResumeMonitor (monitor_id : Z)
| GetStatusPages
| GetStatusPage (slug : string)
| AddStatusPage (slug title : string) (kwargs : list (string * FormVal))
| SaveStatusPage (slug : string) (kwargs : list (string * FormVal))
| DeleteStatusPage (slug : string).

(** How a run ended, without the value returned: [None] for a normal return,
    [Some e] for an exception that propagates to the caller. *)
Definition exit_of {A} (m : M A) : State -> option Exn * State :=
  fun st =>
    match m st with
    | (Ok _, st') => (None, st')
    | (Raise e, st') => (Some e, st')
    end.

(** Run one public operation on the service [self]. *)
Definition perform (lib : Kuma.Library) (self : Kuma.Service) (op : Op)
    : State -> option Exn * State :=
  match op with
  | GetMonitors => exit_of (Kuma.get_monitors lib self)
  | GetMonitor monitor_id => exit_of (Kuma.get_monitor lib self monitor_id)
  | AddMonitor name url monitor_type kwargs =>
      exit_of (Kuma.add_monitor lib self name url monitor_type kwargs)
  | EditMonitor monitor_id kwargs => exit_of (Kuma.edit_monitor lib self monitor_id kwargs)
  | DeleteMonitor monitor_id => exit_of (Kuma.delete_monitor lib self monitor_id)
  | PauseMonitor monitor_id => exit_of (Kuma.pause_monitor lib self monitor_id)
  | ResumeMonitor monitor_id => exit_of (Kuma.resume_monitor lib self monitor_id)
  | GetStatusPages => exit_of (Kuma.get_status_pages lib self)
  | GetStatusPage slug => exit_of (Kuma.get_status_page lib self slug)
  | AddStatusPage slug title kwargs => exit_of (Kuma.add_status_page lib self slug title kwargs)
  | SaveStatusPage slug kwargs => exit_of (Kuma.save_status_page lib self slug kwargs)
  | DeleteStatusPage slug => exit_of (Kuma.delete_status_page lib self slug)
  end.

(** [e] is a call made through the API object [h]. *)
Definition is_call_on (h : Handle) (e : Event) : Prop :=
  exists method args, e = ApiCall h method args.

(** The log of one operation that starts when [h] API objects exist: nothing
    (the arguments were rejected, or the library is missing); a failed
    connection; a failed login; or connection, login, calls on that session,
    and its disconnection. *)
Inductive session_log (h : Handle) : list Event -> Prop :=
| log_nothing : session_log h []
| log_no_connection : session_log h [ApiConnect h false]
| log_no_login : session_log h [ApiConnect h true; ApiLogin h false]
| log_session (calls : list Event) :
    Forall (is_call_on h) calls ->
    session_log h (ApiConnect h true :: ApiLogin h true :: calls ++ [ApiDisconnect h]).

(** A computation that does nothing but make calls through the API object
    [api]: it leaves [_api] and the handle counter alone. *)
Definition calls_only {A} (api : Handle) (m : M A) : Prop :=
  forall st, exists calls,
    Forall (is_call_on api) calls /\
    trace (snd (m st)) = trace st ++ calls /\
    next_handle (snd (m st)) = next_handle st /\
    _api (snd (m st)) = _api st.



(** The next session can be opened from [st]: the library is installed, no API
    object is held, and the library accepts the connection and the login. *)
Definition session_opens (lib : Kuma.Library) (self : Kuma.Service) (st : State) : Prop :=
  Kuma.installed lib = true /\
  _api st = None /\
  Kuma.api_connect lib (trace st) (Kuma.url self) = Kuma.Returns tt /\
  Kuma.api_login lib (trace st ++ [ApiConnect (next_handle st) true])
    (Kuma.username self) (Kuma.password self) = Kuma.Returns tt.

(** The state once that session is open. *)
Definition opened (st : State) : State :=
  mkState ((trace st ++ [ApiConnect (next_handle st) true])
             ++ [ApiLogin (next_handle st) true])
          (S (next_handle st)) (Some (next_handle st)).

(** The state once the session opened from [st] has made [calls] and is
    closed. *)
Definition closed (st : State) (calls : list Event) : State :=
  mkState (trace (opened st) ++ calls ++ [ApiDisconnect (next_handle st)])
          (S (next_handle st)) None.

(** The operations of [UptimeRobotService] that take the id of a monitor or of
    a status page as their first argument, with their other arguments. *)
Inductive IdOp : Type :=
| RobotEditMonitor (kwargs : gmap string FormVal)
| RobotDeleteMonitor
| RobotPauseMonitor
| RobotResumeMonitor
| RobotGetStatusPage
| RobotEditStatusPage (monitor_list : option (list (option Z))) (kwargs : gmap string FormVal)
| RobotDeleteStatusPage.

(** Run one of them on the id [id]. *)
Definition perform_by_id (http : Robot.Http) (self : Robot.Service) (op : IdOp) (id : Z)
    : State -> option Exn * State :=
  match op with
  | RobotEditMonitor kwargs => exit_of (Robot.edit_monitor http self id kwargs)
  | RobotDeleteMonitor => exit_of (Robot.delete_monitor http self id)
  | RobotPauseMonitor => exit_of (Robot.pause_monitor http self id)
  | RobotResumeMonitor => exit_of (Robot.resume_monitor http self id)
  | RobotGetStatusPage => exit_of (Robot.get_status_page http self id)
  | RobotEditStatusPage monitor_list kwargs =>
      exit_of (Robot.edit_status_page http self id monitor_list kwargs)
  | RobotDeleteStatusPage => exit_of (Robot.delete_status_page http self id)
  end.

(** The endpoint each of them posts to. *)
Definition endpoint_of (op : IdOp) : string :=
  match op with
  | RobotEditMonitor _ | RobotPauseMonitor | RobotResumeMonitor => "editMonitor"
  | RobotDeleteMonitor => "deleteMonitor"
  | RobotGetStatusPage => "getPSPs"
  | RobotEditStatusPage _ _ => "editPSP"
  | RobotDeleteStatusPage => "deletePSP"
  end.

(** The API accepts the request: it answers with a body whose [stat] is
    ["ok"]. *)
Definition accepted (answer : Robot.HttpOutcome) : Prop :=
  exists data, answer = Robot.Response data /\ Robot.stat data = Some "ok".

(** A string of ASCII characters: on these, [Py.lower] and [Py.upper] are
    Python's [str.lower] and [str.upper]. *)
Definition ascii_only (s : string) : Prop :=
  Forall (fun c => (nat_of_ascii c < 128)%nat) (list_ascii_of_string s).

(** The form [_make_request] posts for a payload: the payload's entries, and
    the API key and the format where the payload does not set them. *)
Definition posted_form (self : Robot.Service) (payload : gmap string FormVal)
    : gmap string FormVal :=
  payload ∪ {[ "api_key" := FStr (Robot.api_key self); "format" := FStr "json" ]}.

(** The form of an [editPSP] request that sets the members of a page. *)
Definition membership_form (self : Robot.Service) (page_id : Z)
    (members : list (option Z)) : gmap string FormVal :=
  posted_form self
    (<[ "monitors" := FStr (Py.join "-" (map Robot.str_id members)) ]>
       (∅ ∪ {[ "id" := FInt page_id ]})).

(** The service objects the routes build from the configuration. *)
Definition robot_service (cfg : App.Config) : Robot.Service :=
  {| Robot.api_key := App.UPTIME_ROBOT_API_KEY cfg;
     Robot.base_url := Robot.BASE_URL;
     Robot.timeout := Robot.DEFAULT_TIMEOUT |}.

Definition kuma_service (cfg : App.Config) : Kuma.Service :=
  {| Kuma.url := Kuma.rstrip_slash (App.UPTIME_KUMA_URL cfg);
     Kuma.username := App.UPTIME_KUMA_USERNAME cfg;
     Kuma.password := App.UPTIME_KUMA_PASSWORD cfg |}.

End Spec.

(** ** Concrete inputs used by the examples and counterexamples *)

Module Examples.
Import Eff.

(** A monitor whose newest heartbeat ([time] 30) carries the maintenance code 3
    and whose own status field is 1. *)
Definition maintenance_monitor : Kuma.RawMonitor :=
  {| Kuma.m_id := Some 7; Kuma.m_name := Some "db"; Kuma.m_url := None;
     Kuma.m_type := Some "port"; Kuma.m_active := Some true;
     Kuma.m_interval := None; Kuma.m_status := Kuma.Present 1;
     Kuma.m_heartbeats := None |}.

Definition maintenance_beats : list Kuma.Heartbeat :=
  [ Kuma.mkHeartbeat (Some 1) (Some 40) (Some 10);
    Kuma.mkHeartbeat (Some 3) None (Some 30);
    Kuma.mkHeartbeat (Some 0) None (Some 20) ].



(** The scenario of the specification: three heartbeats, the newest last. *)
Definition scenario_monitor : Kuma.RawMonitor :=
  {| Kuma.m_id := Some 3; Kuma.m_name := Some "web"; Kuma.m_url := Some "https://x.com";
     Kuma.m_type := Some "http"; Kuma.m_active := Some true;
     Kuma.m_interval := None; Kuma.m_status := Kuma.Absent;
     Kuma.m_heartbeats :=
       Some [ Kuma.mkHeartbeat (Some 1) (Some 120) (Some 100);
              Kuma.mkHeartbeat (Some 0) None (Some 90);
              Kuma.mkHeartbeat (Some 1) (Some 80) (Some 110) ] |}.

(** A status page with id 5 whose members are the monitors 1 and 2. *)
Definition page_1_2 : Robot.Psp :=
  {| Robot.psp_id := Some 5; Robot.psp_friendly_name := Some "prod";
     Robot.psp_monitors := Some [Robot.mkPspMonitor (Some 1); Robot.mkPspMonitor (Some 2)] |}.


(** An Uptime Robot that accepts every request and lists the page above. *)
Definition robot_accepts : Robot.Http :=
  fun _ _ _ =>
    Robot.Response
      {| Robot.stat := Some "ok"; Robot.error := None; Robot.monitors := None;
         Robot.psps := Some [page_1_2]; Robot.monitor := None; Robot.psp := None |}.

Definition kuma_service : Kuma.Service :=
  {| Kuma.url := "http://localhost:3001"; Kuma.username := "admin";
     Kuma.password := "secret" |}.

Definition blank_monitor : Kuma.RawMonitor :=
  {| Kuma.m_id := None; Kuma.m_name := None; Kuma.m_url := None; Kuma.m_type := None;
     Kuma.m_active := None; Kuma.m_interval := None; Kuma.m_status := Kuma.Absent;
     Kuma.m_heartbeats := None |}.

Definition blank_page : Kuma.StatusPage :=
  {| Kuma.sp_slug := None; Kuma.sp_title := None; Kuma.sp_description := None |}.

(** An Uptime Kuma that accepts the login and then fails every monitor
    listing. *)
Definition listing_fails : Kuma.Library :=
  {| Kuma.installed := true;
     Kuma.api_connect := fun _ _ => Kuma.Returns tt;
     Kuma.api_login := fun _ _ _ => Kuma.Returns tt;
     Kuma.api_get_monitors := fun _ => Kuma.Raises "server went away";
     Kuma.api_get_monitor_beats := fun _ _ _ => Kuma.Returns [];
     Kuma.api_get_monitor := fun _ _ => Kuma.Returns blank_monitor;
     Kuma.api_add_monitor := fun _ _ _ _ _ => Kuma.Returns blank_monitor;
     Kuma.api_edit_monitor := fun _ _ _ => Kuma.Returns tt;
     Kuma.api_delete_monitor := fun _ _ => Kuma.Returns tt;
     Kuma.api_get_status_pages := fun _ => Kuma.Returns [];
     Kuma.api_get_status_page := fun _ _ => Kuma.Returns blank_page;
     Kuma.api_add_status_page := fun _ _ _ _ => Kuma.Returns blank_page;
     Kuma.api_save_status_page := fun _ _ _ => Kuma.Returns tt;
     Kuma.api_delete_status_page := fun _ _ => Kuma.Returns tt;
     Kuma.api_disconnect := fun _ => Kuma.Returns tt |}.

(** An Uptime Kuma that refuses the login. *)
Definition login_refused : Kuma.Library :=
  {| Kuma.installed := true;
     Kuma.api_connect := fun _ _ => Kuma.Returns tt;
     Kuma.api_login := fun _ _ _ => Kuma.Raises "Incorrect username or password.";
     Kuma.api_get_monitors := fun _ => Kuma.Returns [];
     Kuma.api_get_monitor_beats := fun _ _ _ => Kuma.Returns [];
     Kuma.api_get_monitor := fun _ _ => Kuma.Returns blank_monitor;
     Kuma.api_add_monitor := fun _ _ _ _ _ => Kuma.Returns blank_monitor;
     Kuma.api_edit_monitor := fun _ _ _ => Kuma.Returns tt;
     Kuma.api_delete_monitor := fun _ _ => Kuma.Returns tt;
     Kuma.api_get_status_pages := fun _ => Kuma.Returns [];
     Kuma.api_get_status_page := fun _ _ => Kuma.Returns blank_page;
     Kuma.api_add_status_page := fun _ _ _ _ => Kuma.Returns blank_page;
     Kuma.api_save_status_page := fun _ _ _ => Kuma.Returns tt;
     Kuma.api_delete_status_page := fun _ _ => Kuma.Returns tt;
     Kuma.api_disconnect := fun _ => Kuma.Returns tt |}.

(** An Uptime Kuma with one monitor, whose heartbeats are those of the
    scenario. *)
Definition one_monitor : Kuma.Library :=
  {| Kuma.installed := true;
     Kuma.api_connect := fun _ _ => Kuma.Returns tt;
     Kuma.api_login := fun _ _ _ => Kuma.Returns tt;
     Kuma.api_get_monitors :=
       fun _ => Kuma.Returns [Kuma.set_heartbeats scenario_monitor []];
     Kuma.api_get_monitor_beats :=
       fun _ _ _ => Kuma.Returns (default [] (Kuma.m_heartbeats scenario_monitor));
     Kuma.api_get_monitor := fun _ _ => Kuma.Returns blank_monitor;
     Kuma.api_add_monitor := fun _ _ _ _ _ => Kuma.Returns blank_monitor;
     Kuma.api_edit_monitor := fun _ _ _ => Kuma.Returns tt;
     Kuma.api_delete_monitor := fun _ _ => Kuma.Returns tt;
     Kuma.api_get_status_pages := fun _ => Kuma.Returns [];
     Kuma.api_get_status_page := fun _ _ => Kuma.Returns blank_page;
     Kuma.api_add_status_page := fun _ _ _ _ => Kuma.Returns blank_page;
     Kuma.api_save_status_page := fun _ _ _ => Kuma.Returns tt;
     Kuma.api_delete_status_page := fun _ _ => Kuma.Returns tt;
     Kuma.api_disconnect := fun _ => Kuma.Returns tt |}.

(** Only Uptime Kuma is configured. *)
Definition kuma_only : App.Config :=
  {| App.UPTIME_ROBOT_API_KEY := ""; App.UPTIME_KUMA_URL := "http://localhost:3001/";
     App.UPTIME_KUMA_USERNAME := "admin"; App.UPTIME_KUMA_PASSWORD := "secret" |}.

(** An Uptime Kuma that lists two monitors, the second one without an id, and
    fails every heartbeat request. *)
Definition heartbeats_fail : Kuma.Library :=
  {| Kuma.installed := true;
     Kuma.api_connect := fun _ _ => Kuma.Returns tt;
     Kuma.api_login := fun _ _ _ => Kuma.Returns tt;
     Kuma.api_get_monitors := fun _ => Kuma.Returns [maintenance_monitor; blank_monitor];
     Kuma.api_get_monitor_beats := fun _ _ _ => Kuma.Raises "timed out";
     Kuma.api_get_monitor := fun _ _ => Kuma.Raises "monitor does not exist";
     Kuma.api_add_monitor := fun _ _ _ _ _ => Kuma.Returns blank_monitor;
     Kuma.api_edit_monitor := fun _ _ _ => Kuma.Returns tt;
     Kuma.api_delete_monitor := fun _ _ => Kuma.Returns tt;
     Kuma.api_get_status_pages := fun _ => Kuma.Returns [];
     Kuma.api_get_status_page := fun _ _ => Kuma.Returns blank_page;
     Kuma.api_add_status_page := fun _ _ _ _ => Kuma.Returns blank_page;
     Kuma.api_save_status_page := fun _ _ _ => Kuma.Returns tt;
     Kuma.api_delete_status_page := fun _ _ => Kuma.Returns tt;
     Kuma.api_disconnect := fun _ => Kuma.Raises "socket closed" |}.

(** An Uptime Kuma whose monitor 7 is [maintenance_monitor] and which accepts
    an edit only if it leaves the monitor's name alone. *)
Definition keeps_names : Kuma.Library :=
  {| Kuma.installed := true;
     Kuma.api_connect := fun _ _ => Kuma.Returns tt;
     Kuma.api_login := fun _ _ _ => Kuma.Returns tt;
     Kuma.api_get_monitors := fun _ => Kuma.Returns [maintenance_monitor];
     Kuma.api_get_monitor_beats := fun _ _ _ => Kuma.Returns [];
     Kuma.api_get_monitor := fun _ _ => Kuma.Returns maintenance_monitor;
     Kuma.api_add_monitor := fun _ _ _ _ _ => Kuma.Returns blank_monitor;
     Kuma.api_edit_monitor :=
       fun _ _ sent =>
         if bool_decide (Kuma.m_name sent = Some "db") then Kuma.Returns tt
         else Kuma.Raises "renaming is not allowed";
     Kuma.api_delete_monitor := fun _ _ => Kuma.Returns tt;
     Kuma.api_get_status_pages := fun _ => Kuma.Returns [];
     Kuma.api_get_status_page := fun _ _ => Kuma.Returns blank_page;
     Kuma.api_add_status_page := fun _ _ _ _ => Kuma.Returns blank_page;
     Kuma.api_save_status_page := fun _ _ _ => Kuma.Returns tt;
     Kuma.api_delete_status_page := fun _ _ => Kuma.Returns tt;
     Kuma.api_disconnect := fun _ => Kuma.Returns tt |}.

End Examples.

(** ** Proof automation *)

(** Two forms with the same entries are equal. *)
Ltac same_form :=
  unfold Spec.membership_form, Spec.posted_form;
  apply map_eq; intros ?k;
  rewrite ?lookup_union, ?lookup_insert, ?lookup_singleton, ?lookup_empty;
  repeat (destruct (decide _) as [?E|?E]; [try discriminate; try subst|]);
  try congruence; reflexivity.

(** * Properties *)

Import Eff.

(** ** The Python primitives *)

Section SortedReverse.
Context {A : Type} (key : A -> Z).

Lemma insert_desc_perm (x : A) (l : list A) :
  Permutation (Py.insert_desc key x l) (x :: l).
Proof.
  induction l as [|y l IH]; simpl; [reflexivity|].
  destruct (key y <=? key x); [reflexivity|].
  rewrite IH. apply perm_swap.
Qed.

Lemma sorted_reverse_perm (l : list A) : Permutation (Py.sorted_reverse key l) l.
Proof.
  induction l as [|x l IH]; simpl; [reflexivity|].
  rewrite insert_desc_perm. now constructor.
Qed.

Lemma insert_desc_descending (x : A) (l : list A) :
  Spec.descending key l -> Spec.descending key (Py.insert_desc key x l).
Proof.
  unfold Spec.descending. induction 1 as [|y l Hs IH Hy]; simpl.
  - repeat constructor.
  - destruct (key y <=? key x) eqn:E.
    + apply Z.leb_le in E. constructor; [now constructor|].
      constructor; [exact E|].
      eapply Forall_impl; [exact Hy|]. simpl. intros; lia.
    + apply Z.leb_gt in E. constructor; [exact IH|].
      eapply Permutation_Forall; [symmetry; apply insert_desc_perm|].
      constructor; [lia|exact Hy].
Qed.

Lemma sorted_reverse_descending (l : list A) :
  Spec.descending key (Py.sorted_reverse key l).
Proof.
  induction l as [|x l IH]; simpl; [constructor|].
  now apply insert_desc_descending.
Qed.

(** The head of the sorted list is an element of the input with the largest
    key. *)
Lemma sorted_reverse_head (l : list A) (h : A) (t : list A) :
  Py.sorted_reverse key l = h :: t ->
  In h l /\ forall x, In x l -> key x <= key h.
Proof.
  intros E.
  pose proof (sorted_reverse_perm l) as P.
  pose proof (sorted_reverse_descending l) as D.
  rewrite E in P, D. split.
  - eapply Permutation_in; [exact P|now left].
  - intros x Hx. apply (Permutation_in _ (Permutation_sym P)) in Hx.
    destruct Hx as [->|Hx]; [lia|].
    inversion D as [|? ? _ Hall]; subst.
    rewrite List.Forall_forall in Hall. now apply Hall.
Qed.

Lemma sorted_reverse_nonempty (l : list A) :
  l <> [] -> exists h t, Py.sorted_reverse key l = h :: t.
Proof.
  intros Hl. destruct (Py.sorted_reverse key l) as [|h t] eqn:E; [|eauto].
  pose proof (sorted_reverse_perm l) as P. rewrite E in P.
  apply Permutation_nil in P. contradiction.
Qed.
End SortedReverse.

Lemma sum_from (l : list Z) (a : Z) : fold_left Z.add l a = a + Py.sum l.
Proof.
  unfold Py.sum. revert a. induction l as [|x l IH]; intros a; cbn [fold_left]; [lia|].
  rewrite (IH (a + x)), (IH (0 + x)). lia.
Qed.

Lemma sum_cons (x : Z) (l : list Z) : Py.sum (x :: l) = x + Py.sum l.
Proof. unfold Py.sum at 1. simpl. apply sum_from. Qed.

Lemma sum_ones {A} (l : list A) : Py.sum (map (fun _ => 1) l) = Z.of_nat (length l).
Proof.
  induction l as [|x l IH]; [reflexivity|].
  cbn [map length]. rewrite sum_cons, IH. lia.
Qed.

(** ** Binary64 arithmetic on small values *)
















Lemma div_eucl_div (a b : Z) : Z.div_eucl a b = (a / b, a mod b).
Proof. unfold Z.div, Z.modulo. now destruct (Z.div_eucl a b). Qed.








Lemma append_empty_r (s : string) : s +:+ "" = s.
Proof.
  induction s as [|c s IH]; [reflexivity|].
  change (String c s +:+ "") with (String c (s +:+ "")). now rewrite IH.
Qed.

(** [f"{x:.0f}"] of a finite float is an integer numeral, without a point. *)
Lemma format_f_no_decimals (s : bool) (m : positive) (e : Z) :
  Py.format_f 0 (S754_finite s m e) = Py.sign s +:+ Py.str_of_int (Py.scaled_round 0 m e).
Proof.
  unfold Py.format_f, Py.fixed. cbn [Z.of_nat].
  now rewrite Z.pow_0_r, Z.div_1_r, append_empty_r.
Qed.

(** ** Running the monad *)

Lemma run_bind {A B} (m : M A) (k : A -> M B) (st : State) :
  (m ≫= k) st =
    match m st with
    | (Ok a, st') => k a st'
    | (Raise e, st') => (Raise e, st')
    end.
Proof. reflexivity. Qed.

Lemma run_try_except {A} (body : M A) (handler : Exn -> M A) (st : State) :
  try_except body handler st =
    match body st with
    | (Raise e, st') => handler e st'
    | r => r
    end.
Proof. reflexivity. Qed.

(** ** Status reconciliation ([services/uptime_kuma.py]) *)

Lemma most_recent_is_latest (heartbeats : list Kuma.Heartbeat) (latest : Kuma.Heartbeat) :
  Kuma.most_recent heartbeats = Some latest ->
  In latest heartbeats /\
  forall beat, In beat heartbeats -> Kuma.time_key beat <= Kuma.time_key latest.
Proof.
  unfold Kuma.most_recent. intros E.
  destruct (Py.sorted_reverse Kuma.time_key heartbeats) as [|h t] eqn:S; [discriminate|].
  injection E as ->. now apply (sorted_reverse_head Kuma.time_key heartbeats latest t).
Qed.


Lemma most_recent_exists (heartbeats : list Kuma.Heartbeat) :
  heartbeats <> [] -> exists latest, Kuma.most_recent heartbeats = Some latest.
Proof.
  intros H. destruct (sorted_reverse_nonempty Kuma.time_key heartbeats H) as (h & t & E).
  exists h. unfold Kuma.most_recent. now rewrite E.
Qed.

(** How the verdict is computed once the monitor is not paused and the most
    recent heartbeat is known. *)
Lemma verdict_of_most_recent (monitor : Kuma.RawMonitor)
    (heartbeats : list Kuma.Heartbeat) (latest : Kuma.Heartbeat) :
  Kuma.m_active monitor <> Some false ->
  Kuma.most_recent heartbeats = Some latest ->
  Kuma._determine_status_from_heartbeats monitor heartbeats =
    match Kuma.hb_status latest with
    | Some 1 => true
    | Some 0 => false
    | Some 2 => false
    | _ => Kuma.status_field_verdict monitor
    end.
Proof.
  intros Hact E. unfold Kuma._determine_status_from_heartbeats.
  assert (negb (default true (Kuma.m_active monitor)) = false) as ->.
  { destruct (Kuma.m_active monitor) as [[]|]; simpl; congruence. }
  unfold Kuma.most_recent in E.
  destruct heartbeats as [|b bs]; [discriminate|].
  destruct (Py.sorted_reverse Kuma.time_key (b :: bs)) as [|h t]; [discriminate|].
  now injection E as ->.
Qed.


(** C10. When the monitor is not paused and its most recent heartbeat by time
    has a status other than 0, 1 and 2, that heartbeat does not decide: the
    verdict is that of the monitor's own non-null [status] field (UP iff it is
    1), and DOWN when the field is absent or null. *)
Theorem undecided_heartbeat_falls_back
    (monitor : Kuma.RawMonitor) (heartbeats : list Kuma.Heartbeat)
    (latest : Kuma.Heartbeat) :
  Kuma.m_active monitor <> Some false ->
  Kuma.most_recent heartbeats = Some latest ->
  Kuma.hb_status latest <> Some 0 ->
  Kuma.hb_status latest <> Some 1 ->
  Kuma.hb_status latest <> Some 2 ->
  let verdict := Kuma._determine_status_from_heartbeats monitor heartbeats in
  (forall status, Kuma.m_status monitor = Kuma.Present status ->
     verdict = (status =? Kuma.STATUS_UP)) /\
  (Kuma.m_status monitor = Kuma.Absent \/ Kuma.m_status monitor = Kuma.Null ->
   verdict = false).
Proof.
  intros Hact E H0 H1 H2 verdict. subst verdict.
  rewrite (verdict_of_most_recent monitor heartbeats latest Hact E).
  assert (match Kuma.hb_status latest with
          | Some 1 => true
          | Some 0 => false
          | Some 2 => false
          | _ => Kuma.status_field_verdict monitor
          end = Kuma.status_field_verdict monitor) as ->.
  { destruct (Kuma.hb_status latest) as [[|[p|p|]|p]|]; try reflexivity; try congruence;
      destruct p; try reflexivity; congruence. }
  unfold Kuma.status_field_verdict. split.
  - now intros status ->.
  - now intros [-> | ->].
Qed.

Lemma undecided_heartbeat_falls_back_witness :
  Kuma._determine_status_from_heartbeats Examples.maintenance_monitor Examples.maintenance_beats = true.
Proof.
  refine (proj1 (undecided_heartbeat_falls_back Examples.maintenance_monitor Examples.maintenance_beats
           (Kuma.mkHeartbeat (Some 3) None (Some 30)) _ _ _ _ _) 1 _);
    try discriminate; reflexivity.
Defined.

(** ** Uptime percentage *)

Lemma status_is_one (beat : Kuma.Heartbeat) :
  Kuma.status_is 1 beat = bool_decide (Kuma.hb_status beat = Some 1).
Proof.
  unfold Kuma.status_is. destruct (Kuma.hb_status beat) as [s|].
  - destruct (Z.eqb_spec s 1) as [->|Hne].
    + now rewrite bool_decide_eq_true_2.
    + rewrite bool_decide_eq_false_2; [reflexivity|congruence].
  - now rewrite bool_decide_eq_false_2.
Qed.

Lemma successful_checks_count (heartbeats : list Kuma.Heartbeat) :
  Py.sum (map (fun _ => 1) (List.filter (Kuma.status_is 1) heartbeats)) =
  Z.of_nat (Spec.up_count heartbeats).
Proof.
  rewrite sum_ones. unfold Spec.up_count. do 2 f_equal.
  apply List.filter_ext. intros beat. apply status_is_one.
Qed.


(** The percentage string as a function of the two counts. *)
Lemma uptime_of_counts (heartbeats : list Kuma.Heartbeat) :
  heartbeats <> [] ->
  Kuma._calculate_uptime_from_heartbeats heartbeats =
    match Py.true_div (Z.of_nat (Spec.up_count heartbeats)) (Z.of_nat (length heartbeats)) with
    | Some ratio => Py.format_f 2 (Py.float_mul ratio (Py.float_of_int 100))
    | None => "N/A"
    end.
Proof.
  intros Hne. destruct heartbeats as [|b bs]; [contradiction|].
  unfold Kuma._calculate_uptime_from_heartbeats.
  rewrite successful_checks_count. unfold Py.len.
  destruct (Z.of_nat (length (b :: bs)) =? 0) eqn:E; [|reflexivity].
  apply Z.eqb_eq in E. simpl in E. lia.
Qed.



(** ** The recent log *)

(** C8. The [logs] entry of a formatted monitor is the first 20 heartbeats in
    the order received; its length is [min 20 (length heartbeats)], hence at
    most 20. *)
Theorem logs_are_first_twenty (monitor : Kuma.RawMonitor) :
  let heartbeats := default [] (Kuma.m_heartbeats monitor) in
  let logs := Kuma.f_logs (Kuma._format_monitor monitor) in
  logs = firstn 20 heartbeats /\
  length logs = Nat.min 20 (length heartbeats) /\
  (length logs <= 20)%nat.
Proof.
  intros heartbeats logs.
  assert (logs = firstn 20 heartbeats) as E.
  { subst logs. unfold Kuma._format_monitor.
    destruct (Kuma.response_times _) as [avg cur]. cbn [Kuma.f_logs].
    fold heartbeats. now destruct heartbeats. }
  rewrite E. split; [reflexivity|].
  rewrite length_firstn. split; [reflexivity|lia].
Qed.

(** ** Response times *)












Example scenario_formatted :
  let shown := Kuma._format_monitor Examples.scenario_monitor in
  Kuma.f_status shown = true /\
  Kuma.f_uptime shown = "66.67" /\
  Kuma.f_response_time shown = "80" /\
  Kuma.f_avg_response_time shown = "100".
Proof. vm_compute. repeat split; reflexivity. Qed.

(** ** Validation before any network call *)

(** C7. [add_monitor] with an empty name raises [ValueError] on either service
    and leaves the state, hence the log of calls, as it was; so does the Uptime
    Kuma [add_monitor] for a type that is "http" or "https" in any letter case
    when the url is missing or empty. *)
Theorem add_monitor_rejects_before_any_call :
  (forall http self url monitor_type interval kwargs st,
     Robot.add_monitor http self "" url monitor_type interval kwargs st =
       (Raise (ValueError "Name and URL are required"), st)) /\
  (forall lib self url monitor_type kwargs st,
     Kuma.add_monitor lib self "" url monitor_type kwargs st =
       (Raise (ValueError "Monitor name is required"), st)) /\
  (forall lib self name url monitor_type kwargs st,
     Py.lower monitor_type = "http" \/ Py.lower monitor_type = "https" ->
     url = None \/ url = Some "" ->
     exists msg,
       Kuma.add_monitor lib self name url monitor_type kwargs st = (Raise (ValueError msg), st)).
Proof.
  split; [|split].
  - reflexivity.
  - reflexivity.
  - intros lib self name url monitor_type kwargs st Htype Hurl.
    unfold Kuma.add_monitor.
    destruct (negb (Py.truthy_str name)); [eexists; reflexivity|].
    assert (bool_decide (Py.lower monitor_type ∈ ["http"; "https"]) = true) as ->.
    { apply bool_decide_eq_true_2, list_elem_of_In.
      destruct Htype as [E | E]; rewrite E; simpl; auto. }
    assert (Py.truthy_opt_str url = false) as ->
      by (destruct Hurl as [E | E]; rewrite E; reflexivity).
    eexists; reflexivity.
Qed.

Example add_monitor_mixed_case_http (lib : Kuma.Library) (self : Kuma.Service) :
  Kuma.add_monitor lib self "site" None "HtTpS" [] Spec.initial_state =
    (Raise (ValueError "URL is required for HTTP monitors"), Spec.initial_state).
Proof. reflexivity. Qed.

(** ** Status-page membership on Uptime Kuma *)

(** C5, as amended.  The two Uptime Kuma status-page membership routes make no
    backend call and change nothing; both answer [{'success': True}]. *)
Theorem kuma_page_membership_answers_success (slug : string) (st : State) :
  App.add_monitors_to_uptime_kuma_status_page slug st =
    (Ok {| App.success := true; App.error := None |}, st) /\
  App.remove_monitor_from_uptime_kuma_status_page slug st =
    (Ok {| App.success := true; App.error := None |}, st).
Proof. split; reflexivity. Qed.

(** C5, as stated, fails: on the page "status" neither route answers that the
    operation is not supported; both report success. *)
Lemma kuma_page_membership_counterexample :
  ~ Spec.surfaced_as_not_supported
      (fst (App.add_monitors_to_uptime_kuma_status_page "status" Spec.initial_state)) /\
  ~ Spec.surfaced_as_not_supported
      (fst (App.remove_monitor_from_uptime_kuma_status_page "status" Spec.initial_state)).
Proof. split; simpl; discriminate. Qed.

(** ** The combined listing *)

(** C4. Whatever the configuration and the two backends do, [get_all_monitors]
    returns, without raising, a dict with exactly the keys "uptime_robot" and
    "uptime_kuma"; a backend whose fetch raises contributes the empty list and
    one whose fetch returns contributes its monitors. *)
Theorem get_all_monitors_has_both_keys
    (cfg : App.Config) (http : Robot.Http) (lib : Kuma.Library) (st : State) :
  exists (listing : gmap string (list App.AnyMonitor)) (st' : State),
    App.get_all_monitors cfg http lib st = (Ok listing, st') /\
    dom listing = ({[ "uptime_robot"; "uptime_kuma" ]} : gset string) /\
    listing !! "uptime_robot" =
      Some match fst (App.fetch_uptime_robot cfg http st) with
           | Ok monitors => monitors
           | Raise _ => []
           end /\
    listing !! "uptime_kuma" =
      Some match fst (App.fetch_uptime_kuma cfg lib
                        (snd (App.fetch_uptime_robot cfg http st))) with
           | Ok monitors => monitors
           | Raise _ => []
           end.
Proof.
  unfold App.get_all_monitors, mbind, mret, M_bind, M_ret, bind, ret, try_except.
  destruct (App.fetch_uptime_robot cfg http st) as [[robot|e1] st1]; cbn [fst snd];
    destruct (App.fetch_uptime_kuma cfg lib st1) as [[kuma|e2] st2]; cbn [fst snd];
    eexists _, _; (split; [reflexivity|]); (split; [set_solver|]);
    split; now simplify_map_eq.
Qed.

(** The scenario of the specification: Uptime Robot is not configured, Uptime
    Kuma is and has one monitor.  No POST is made, and the Uptime Kuma session
    is opened and closed. *)
Example robot_unconfigured_scenario :
  exists listing st',
    App.get_all_monitors Examples.kuma_only Examples.robot_accepts Examples.one_monitor
      Spec.initial_state = (Ok listing, st') /\
    listing !! "uptime_robot" = Some [] /\
    listing !! "uptime_kuma" =
      Some [App.OfKuma (Kuma._format_monitor Examples.scenario_monitor)] /\
    trace st' =
      [ApiConnect 0%nat true; ApiLogin 0%nat true; ApiCall 0%nat "get_monitors" [];
       ApiCall 0%nat "get_monitor_beats" [FInt 3; FInt 24]; ApiDisconnect 0%nat].
Proof. eexists _, _. split; [reflexivity|]. repeat split. Qed.

(** ** Status-page membership on Uptime Robot *)



Lemma truthy_str_nonempty (s : string) : s <> "" -> Py.truthy_str s = true.
Proof.
  intros Hs. unfold Py.truthy_str. destruct (String.eqb_spec s ""); [contradiction|reflexivity].
Qed.

Lemma truthy_int_nonzero (z : Z) : z <> 0 -> Py.truthy_int z = true.
Proof.
  intros Hz. unfold Py.truthy_int. destruct (Z.eqb_spec z 0); [contradiction|reflexivity].
Qed.



(** ** Session scoping ([services/uptime_kuma.py]) *)

Lemma run_try_finally_state {A} (body : M A) (cleanup : M unit) (st : State) :
  snd (try_finally body cleanup st) = snd (cleanup (snd (body st))).
Proof.
  unfold try_finally. destruct (body st) as [r st1]. cbn [snd].
  now destruct (cleanup st1) as [[[]|e] st2].
Qed.

Lemma calls_only_ret {A} (api : Handle) (a : A) : Spec.calls_only api (mret a : M A).
Proof. intros st. exists []. cbn. rewrite app_nil_r. auto. Qed.

Lemma calls_only_raise {A} (api : Handle) (e : Exn) : Spec.calls_only api (raise e : M A).
Proof. intros st. exists []. cbn. rewrite app_nil_r. auto. Qed.

Lemma calls_only_invoke {A} (api : Handle) (method : string) (args : list FormVal)
    (answer : list Event -> Kuma.Reply A) :
  Spec.calls_only api (Kuma.invoke (ApiCall api method args) answer).
Proof.
  intros st. exists [ApiCall api method args]. unfold Kuma.invoke.
  split; [repeat constructor; now exists method, args|].
  now destruct (answer (trace st)).
Qed.

Lemma calls_only_bind {A B} (api : Handle) (m : M A) (k : A -> M B) :
  Spec.calls_only api m -> (forall a, Spec.calls_only api (k a)) ->
  Spec.calls_only api (m ≫= k).
Proof.
  intros Hm Hk st. rewrite run_bind.
  destruct (Hm st) as (c1 & F1 & T1 & N1 & A1).
  destruct (m st) as [[a|e] st1]; cbn [snd] in *.
  - destruct (Hk a st1) as (c2 & F2 & T2 & N2 & A2).
    exists (c1 ++ c2). rewrite T2, T1, N2, N1, A2, A1, app_assoc.
    split; [now apply Forall_app|auto].
  - exists c1. auto.
Qed.

Lemma calls_only_try_except {A} (api : Handle) (body : M A) (handler : Exn -> M A) :
  Spec.calls_only api body -> (forall e, Spec.calls_only api (handler e)) ->
  Spec.calls_only api (try_except body handler).
Proof.
  intros Hm Hk st. rewrite run_try_except.
  destruct (Hm st) as (c1 & F1 & T1 & N1 & A1).
  destruct (body st) as [[a|e] st1]; cbn [snd] in *.
  - exists c1. auto.
  - destruct (Hk e st1) as (c2 & F2 & T2 & N2 & A2).
    exists (c1 ++ c2). rewrite T2, T1, N2, N1, A2, A1, app_assoc.
    split; [now apply Forall_app|auto].
Qed.

Section Sessions.
Context (lib : Kuma.Library) (self : Kuma.Service).

Lemma calls_only_reraise {A} (api : Handle) (what : string) (e : Exn) :
  Spec.calls_only api (Kuma.reraise what e : M A).
Proof. destruct e; apply calls_only_raise. Qed.

Lemma calls_only_attach_heartbeats (api : Handle) (monitor : Kuma.RawMonitor) :
  Spec.calls_only api (Kuma.attach_heartbeats lib api monitor).
Proof.
  unfold Kuma.attach_heartbeats. apply calls_only_try_except.
  - destruct (Kuma.m_id monitor) as [monitor_id|]; [|apply calls_only_ret].
    destruct (Py.truthy_int monitor_id); [|apply calls_only_ret].
    apply calls_only_bind; [apply calls_only_invoke|].
    intros heartbeats. apply calls_only_ret.
  - intros e. apply calls_only_ret.
Qed.

Lemma calls_only_format_all (api : Handle) (monitors_data : list Kuma.RawMonitor) :
  Spec.calls_only api (Kuma.format_all lib api monitors_data).
Proof.
  induction monitors_data as [|monitor rest IH]; cbn [Kuma.format_all].
  - apply calls_only_ret.
  - apply calls_only_bind; [apply calls_only_attach_heartbeats|].
    intros monitor'. apply calls_only_bind; [exact IH|].
    intros monitors. apply calls_only_ret.
Qed.

(** [_get_api] on a service that holds no API object: either it raises an
    [UptimeKumaException], having made no call, a failed connection, or a
    connection and a failed login, and still holds none; or it returns a new
    object that is connected, logged in and stored in [_api]. *)
Lemma get_api_fresh (st : State) :
  _api st = None ->
  let h := next_handle st in
  let r := fst (Kuma._get_api lib self st) in
  let st' := snd (Kuma._get_api lib self st) in
  ((exists msg, r = Raise (UptimeKumaException msg)) /\
   _api st' = None /\
   (next_handle st <= next_handle st')%nat /\
   (trace st' = trace st \/
    trace st' = trace st ++ [ApiConnect h false] \/
    trace st' = trace st ++ [ApiConnect h true; ApiLogin h false])) \/
  (r = Ok h /\ _api st' = Some h /\ next_handle st' = S h /\
   trace st' = trace st ++ [ApiConnect h true; ApiLogin h true]).
Proof.
  intros Hnone h r st'. subst r st' h.
  unfold Kuma._get_api. rewrite run_bind. unfold get_api_attr. rewrite Hnone.
  rewrite run_try_except.
  destruct (Kuma.installed lib).
  - rewrite run_bind. unfold Kuma.new_api.
    destruct (Kuma.api_connect lib (trace st) (Kuma.url self)) as [[]|msg].
    + rewrite run_bind. unfold Kuma.login. cbn [trace next_handle _api].
      destruct (Kuma.api_login lib _ (Kuma.username self) (Kuma.password self))
        as [[]|msg].
      * right. cbn. rewrite <- app_assoc. auto.
      * left. cbn [trace next_handle _api].
        destruct (_ || _); [|destruct (_ || _)]; cbn;
          rewrite <- app_assoc; (split; [eauto|]); (split; [exact Hnone|]);
          (split; [lia|auto]).
    + left. destruct (_ || _); [|destruct (_ || _)]; cbn;
        (split; [eauto|]); (split; [exact Hnone|]); (split; [lia|auto]).
  - left. cbn. split; [eauto|]. split; [exact Hnone|]. split; [lia|auto].
Qed.

(** [_disconnect] on a service that holds the API object [h]: one
    disconnection of [h] is logged, whether or not it raises, and [_api] is
    reset; [_disconnect] itself returns normally. *)
Lemma disconnect_held (st : State) (h : Handle) :
  _api st = Some h ->
  Kuma._disconnect lib st =
    (Ok tt, mkState (trace st ++ [ApiDisconnect h]) (next_handle st) None).
Proof.
  intros Hheld. unfold Kuma._disconnect. rewrite run_bind. unfold get_api_attr.
  rewrite Hheld. unfold try_finally, try_except, Kuma.invoke, set_api_attr.
  now destruct (Kuma.api_disconnect lib (trace st)) as [[]|msg].
Qed.

(** The skeleton shared by the public methods. *)
Lemma scoped_session {A} (what : string) (body : Handle -> M A) (st : State) :
  (forall api, Spec.calls_only api (body api)) ->
  _api st = None ->
  let st' :=
    snd (scoped (Kuma._get_api lib self) body (Kuma.reraise what)
                (Kuma.release lib) st) in
  exists events,
    trace st' = trace st ++ events /\
    Spec.session_log (next_handle st) events /\
    _api st' = None /\
    (next_handle st <= next_handle st')%nat /\
    (In (ApiLogin (next_handle st) true) events -> next_handle st' = S (next_handle st)).
Proof.
  intros Hbody Hnone st'. subst st'. unfold scoped.
  destruct (get_api_fresh st Hnone)
    as [([msg Hr] & Hapi & Hle & Htr) | (Hr & Hapi & Hnext & Htr)];
    destruct (Kuma._get_api lib self st) as [r st1]; cbn [fst snd] in *; subst r.
  - rewrite run_try_finally_state. cbn.
    destruct Htr as [Htr | [Htr | Htr]]; eexists;
      (split; [|split; [|split; [exact Hapi|split; [exact Hle|]]]]).
    + rewrite Htr, app_nil_r. reflexivity.
    + constructor.
    + intros [].
    + exact Htr.
    + constructor.
    + intros [H|[]]; discriminate.
    + exact Htr.
    + constructor.
    + intros [H|[H|[]]]; discriminate.
  - rewrite run_try_finally_state.
    destruct (calls_only_try_except (next_handle st) (body (next_handle st))
                (Kuma.reraise what) (Hbody _)
                (fun e => calls_only_reraise (next_handle st) what e) st1)
      as (calls & Hcalls & Htr2 & Hnext2 & Hapi2).
    set (st2 := snd (try_except (body (next_handle st)) (Kuma.reraise what) st1)) in *.
    cbn [Kuma.release].
    rewrite (disconnect_held st2 (next_handle st)) by congruence.
    cbn [snd trace _api next_handle].
    exists (ApiConnect (next_handle st) true :: ApiLogin (next_handle st) true ::
            calls ++ [ApiDisconnect (next_handle st)]).
    split; [rewrite Htr2, Htr, <- !app_assoc; reflexivity|].
    split; [now constructor|]. split; [reflexivity|].
    split; [lia|intros _; congruence].
Qed.
End Sessions.

Lemma exit_of_state {A} (m : M A) (st : State) : snd (Spec.exit_of m st) = snd (m st).
Proof. unfold Spec.exit_of. now destruct (m st) as [[a|e] st']. Qed.

(** Every public operation of the Uptime Kuma service, started without an API
    object, logs one of the four shapes of [session_log] and ends without an
    API object; it constructs at most one API object. *)
Lemma perform_session_log (lib : Kuma.Library) (self : Kuma.Service) (op : Spec.Op)
    (st : State) :
  _api st = None ->
  exists events,
    trace (snd (Spec.perform lib self op st)) = trace st ++ events /\
    Spec.session_log (next_handle st) events /\
    _api (snd (Spec.perform lib self op st)) = None /\
    (next_handle st <= next_handle (snd (Spec.perform lib self op st)))%nat /\
    (In (ApiLogin (next_handle st) true) events ->
     next_handle (snd (Spec.perform lib self op st)) = S (next_handle st)).
Proof.
  intros Hnone.
  assert (exists events,
            trace st = trace st ++ events /\ Spec.session_log (next_handle st) events /\
            _api st = None /\ (next_handle st <= next_handle st)%nat /\
            (In (ApiLogin (next_handle st) true) events ->
             next_handle st = S (next_handle st))) as Hrejected.
  { exists []. rewrite app_nil_r.
    split; [reflexivity|]. split; [constructor|]. split; [exact Hnone|].
    split; [lia|intros []]. }
  destruct op; cbn [Spec.perform]; rewrite exit_of_state;
    unfold Kuma.get_monitors, Kuma.get_monitor, Kuma.add_monitor, Kuma.pause_monitor,
      Kuma.resume_monitor, Kuma.edit_monitor, Kuma.delete_monitor, Kuma.get_status_pages,
      Kuma.get_status_page, Kuma.add_status_page, Kuma.save_status_page,
      Kuma.delete_status_page;
    repeat match goal with
           | |- context [if ?guard then raise _ else _] =>
               destruct guard; [exact Hrejected|]
           end;
    (apply scoped_session; [intros api|exact Hnone]).
  - apply calls_only_bind; [apply calls_only_invoke|].
    intros monitors_data. apply calls_only_format_all.
  - apply calls_only_bind; [apply calls_only_invoke|]. intros monitor.
    apply calls_only_bind; [|intros monitor'; apply calls_only_ret].
    apply calls_only_try_except; [|intros e; apply calls_only_ret].
    apply calls_only_bind; [apply calls_only_invoke|].
    intros heartbeats. apply calls_only_ret.
  - apply calls_only_bind; [apply calls_only_invoke|].
    intros monitor. apply calls_only_ret.
  - apply calls_only_bind; [apply calls_only_invoke|]. intros monitor.
    apply calls_only_bind; [apply calls_only_invoke|]. intros _. apply calls_only_ret.
  - apply calls_only_bind; [apply calls_only_invoke|]. intros _. apply calls_only_ret.
  - apply calls_only_bind; [apply calls_only_invoke|]. intros monitor.
    apply calls_only_bind; [apply calls_only_invoke|]. intros _. apply calls_only_ret.
  - apply calls_only_bind; [apply calls_only_invoke|]. intros monitor.
    apply calls_only_bind; [apply calls_only_invoke|]. intros _. apply calls_only_ret.
  - apply calls_only_invoke.
  - apply calls_only_invoke.
  - apply calls_only_invoke.
  - apply calls_only_bind; [apply calls_only_invoke|]. intros _. apply calls_only_ret.
  - apply calls_only_bind; [apply calls_only_invoke|]. intros _. apply calls_only_ret.
Qed.

Lemma call_is_not_login (h h' : Handle) (e : Event) :
  Spec.is_call_on h e -> e <> ApiLogin h' true.
Proof. intros (method & args & ->). discriminate. Qed.

(** C9. Every public operation of the Uptime Kuma service, on every exit
    (normal return or exception), leaves the service without an API object;
    every session it opened (a login that returned) is disconnected later in
    the same operation; and every call it made went through a session that was
    created and logged in earlier in the same operation, never one that
    existed before, nor one that a later operation can use. *)
Theorem sessions_are_released
    (lib : Kuma.Library) (self : Kuma.Service) (op : Spec.Op)
    (st st' : State) (exit : option Exn) :
  _api st = None ->
  Spec.perform lib self op st = (exit, st') ->
  exists events,
    trace st' = trace st ++ events /\
    _api st' = None /\
    (forall h, In (ApiLogin h true) events ->
       exists before after,
         events = before ++ ApiLogin h true :: after /\ In (ApiDisconnect h) after) /\
    (forall h method args, In (ApiCall h method args) events ->
       (next_handle st <= h < next_handle st')%nat /\
       exists before after,
         events = before ++ ApiCall h method args :: after /\
         In (ApiLogin h true) before).
Proof.
  intros Hnone Hrun.
  destruct (perform_session_log lib self op st Hnone)
    as (events & Htr & Hlog & Hapi & Hle & Hnext).
  rewrite Hrun in Htr, Hapi, Hle, Hnext. cbn [snd] in Htr, Hapi, Hle, Hnext.
  exists events. split; [exact Htr|]. split; [exact Hapi|].
  set (h0 := next_handle st) in *.
  destruct Hlog as [ | | |calls Hcalls].
  - split; intros; contradiction.
  - split.
    + intros h [H|[]]; discriminate.
    + intros h method args [H|[]]; discriminate.
  - split.
    + intros h [H|[H|[]]]; discriminate.
    + intros h method args [H|[H|[]]]; discriminate.
  - rewrite List.Forall_forall in Hcalls. split.
    + intros h Hin.
      assert (h = h0) as ->.
      { destruct Hin as [H|[H|Hin]]; [discriminate|congruence|].
        apply in_app_or in Hin as [Hin|[H|[]]]; [|discriminate].
        now destruct (call_is_not_login h0 h _ (Hcalls _ Hin)). }
      exists [ApiConnect h0 true], (calls ++ [ApiDisconnect h0]).
      split; [reflexivity|]. apply in_or_app. right. now left.
    + intros h method args Hin.
      assert (In (ApiCall h method args) calls) as Hc.
      { destruct Hin as [H|[H|Hin]]; [discriminate|discriminate|].
        apply in_app_or in Hin as [Hin|[H|[]]]; [exact Hin|discriminate]. }
      destruct (Hcalls _ Hc) as (method' & args' & E). injection E as -> _ _.
      assert (next_handle st' = S h0) as Hn by (apply Hnext; right; now left).
      split; [lia|].
      apply in_split in Hc as (c1 & c2 & ->).
      exists (ApiConnect h0 true :: ApiLogin h0 true :: c1), (c2 ++ [ApiDisconnect h0]).
      split; [now rewrite <- app_assoc|]. right. now left.
Qed.

Lemma sessions_are_released_witness :
  Spec.perform Examples.listing_fails Examples.kuma_service Spec.GetMonitors
    Spec.initial_state =
    (Some (UptimeKumaException "Failed to get monitors: server went away"),
     mkState [ApiConnect 0%nat true; ApiLogin 0%nat true; ApiCall 0%nat "get_monitors" [];
              ApiDisconnect 0%nat] 1%nat None) /\
  exists events,
    [ApiConnect 0%nat true; ApiLogin 0%nat true; ApiCall 0%nat "get_monitors" [];
     ApiDisconnect 0%nat] = trace Spec.initial_state ++ events /\
    (None : option Handle) = None /\
    (forall h, In (ApiLogin h true) events ->
       exists before after,
         events = before ++ ApiLogin h true :: after /\ In (ApiDisconnect h) after) /\
    (forall h method args, In (ApiCall h method args) events ->
       (next_handle Spec.initial_state <= h < 1)%nat /\
       exists before after,
         events = before ++ ApiCall h method args :: after /\
         In (ApiLogin h true) before).
Proof.
  split; [reflexivity|].
  exact (sessions_are_released Examples.listing_fails Examples.kuma_service
           Spec.GetMonitors Spec.initial_state _ _ eq_refl eq_refl).
Defined.

(** A refused login: the API object was connected, no session was opened, and
    [_get_api] raises; nothing is disconnected. *)
Example refused_login_opens_no_session :
  Spec.perform Examples.login_refused Examples.kuma_service Spec.GetMonitors
    Spec.initial_state =
    (Some (UptimeKumaException
       "Failed to initialize API: Incorrect username or password."),
     mkState [ApiConnect 0%nat true; ApiLogin 0%nat false] 1%nat None).
Proof. reflexivity. Qed.

(** * Further properties *)

(** ** The verdict and the order of the heartbeats *)

Lemma key_injective_on {A} (key : A -> Z) (l : list A) (x y : A) :
  NoDup (map key l) -> In x l -> In y l -> key x = key y -> x = y.
Proof.
  induction l as [|a l IH]; intros Hnd Hx Hy E; [contradiction|].
  inversion Hnd as [|? ? Hnot Hnd']; subst.
  destruct Hx as [->|Hx], Hy as [->|Hy].
  - reflexivity.
  - exfalso. apply Hnot. rewrite E. apply list_elem_of_In. now apply in_map.
  - exfalso. apply Hnot. rewrite <- E. apply list_elem_of_In. now apply in_map.
  - now apply IH.
Qed.

(** X1. When no two heartbeats carry the same [time], the verdict does not
    depend on the order in which the heartbeats are received. *)
Theorem verdict_ignores_order_of_distinct_times
    (monitor : Kuma.RawMonitor) (heartbeats reordered : list Kuma.Heartbeat) :
  NoDup (map Kuma.time_key heartbeats) ->
  Permutation heartbeats reordered ->
  Kuma._determine_status_from_heartbeats monitor reordered =
  Kuma._determine_status_from_heartbeats monitor heartbeats.
Proof.
  intros Hnd P.
  destruct (decide (Kuma.m_active monitor = Some false)) as [Hoff|Hon].
  { unfold Kuma._determine_status_from_heartbeats. now rewrite Hoff. }
  destruct heartbeats as [|b bs].
  { apply Permutation_nil in P. now subst. }
  assert (reordered <> []) as Hr.
  { intros ->. apply Permutation_sym, Permutation_nil in P. discriminate. }
  destruct (most_recent_exists (b :: bs)) as [l1 E1]; [discriminate|].
  destruct (most_recent_exists reordered Hr) as [l2 E2].
  rewrite (verdict_of_most_recent monitor _ l1 Hon E1),
          (verdict_of_most_recent monitor _ l2 Hon E2).
  destruct (most_recent_is_latest _ _ E1) as [In1 Max1].
  destruct (most_recent_is_latest _ _ E2) as [In2 Max2].
  assert (In l2 (b :: bs)) as In2' by (eapply Permutation_in; [symmetry|]; eassumption).
  assert (In l1 reordered) as In1' by (eapply Permutation_in; eassumption).
  assert (l1 = l2) as ->; [|reflexivity].
  apply (key_injective_on Kuma.time_key (b :: bs)); auto.
  specialize (Max1 l2 In2'). specialize (Max2 l1 In1'). lia.
Qed.

Lemma verdict_ignores_order_of_distinct_times_witness :
  Kuma._determine_status_from_heartbeats Examples.maintenance_monitor
    (rev Examples.maintenance_beats) =
  Kuma._determine_status_from_heartbeats Examples.maintenance_monitor
    Examples.maintenance_beats.
Proof.
  apply verdict_ignores_order_of_distinct_times.
  - apply (bool_decide_unpack _). vm_compute. exact I.
  - apply Permutation_rev.
Defined.

(** ** The extremes of the uptime percentage *)

(** A positive integer divided by itself is exactly 1.0. *)
Lemma true_div_self (q : positive) :
  Py.true_div (Z.pos q) (Z.pos q) = Some (S754_finite false 4503599627370496 (-52)).
Proof.
  unfold Py.true_div. cbn [Z.eqb Py.exact_int SFdiv xorb]. f_equal.
  unfold SFdiv_core_binary.
  replace (Zdigits2 (Z.pos q) + 0 - (Zdigits2 (Z.pos q) + 0)) with 0 by lia.
  change (Z.min (fexp Py.prec Py.emax 0) (0 - 0)) with (-53).
  change (0 - 0 - -53) with 53.
  rewrite div_eucl_div, Z.shiftl_mul_pow2 by lia.
  rewrite Z.mul_comm, Z.div_mul, Z.mod_mul by lia.
  assert (new_location (Z.pos q) 0 = loc_Exact) as ->.
  { unfold new_location, new_location_even, new_location_odd.
    now destruct (Z.even (Z.pos q)). }
  vm_compute. reflexivity.
Qed.

Lemma up_count_all (heartbeats : list Kuma.Heartbeat) :
  (forall beat, In beat heartbeats -> Kuma.hb_status beat = Some 1) ->
  Spec.up_count heartbeats = length heartbeats.
Proof.
  unfold Spec.up_count. induction heartbeats as [|b l IH]; intros H; [reflexivity|].
  simpl. rewrite bool_decide_eq_true_2 by (apply H; now left).
  simpl. f_equal. apply IH. intros beat Hb. apply H. now right.
Qed.

Lemma up_count_none (heartbeats : list Kuma.Heartbeat) :
  (forall beat, In beat heartbeats -> Kuma.hb_status beat <> Some 1) ->
  Spec.up_count heartbeats = 0%nat.
Proof.
  unfold Spec.up_count. induction heartbeats as [|b l IH]; intros H; [reflexivity|].
  simpl. rewrite bool_decide_eq_false_2 by (apply H; now left).
  apply IH. intros beat Hb. apply H. now right.
Qed.

(** X2. For a non-empty sequence of heartbeats, however long: if every
    heartbeat has status 1 the uptime is ["100.00"], and if none has status 1
    it is ["0.00"]. *)
Theorem uptime_extremes (heartbeats : list Kuma.Heartbeat) :
  heartbeats <> [] ->
  ((forall beat, In beat heartbeats -> Kuma.hb_status beat = Some 1) ->
   Kuma._calculate_uptime_from_heartbeats heartbeats = "100.00") /\
  ((forall beat, In beat heartbeats -> Kuma.hb_status beat <> Some 1) ->
   Kuma._calculate_uptime_from_heartbeats heartbeats = "0.00").
Proof.
  intros Hne. rewrite (uptime_of_counts heartbeats Hne).
  assert (exists q, Z.of_nat (length heartbeats) = Z.pos q) as [q Hq].
  { destruct heartbeats as [|b l]; [contradiction|].
    exists (Pos.of_succ_nat (length l)). simpl length. lia. }
  split; intros H.
  - rewrite (up_count_all _ H), Hq, true_div_self. vm_compute. reflexivity.
  - rewrite (up_count_none _ H), Hq. vm_compute. reflexivity.
Qed.

Lemma uptime_extremes_witness :
  Kuma._calculate_uptime_from_heartbeats
    [Kuma.mkHeartbeat (Some 0) None (Some 5); Kuma.mkHeartbeat (Some 3) None (Some 6)]
  = "0.00".
Proof.
  apply uptime_extremes; [discriminate|].
  intros beat [<-|[<-|[]]]; discriminate.
Defined.

(** ** The average response time and the order of the heartbeats *)





(** ** The label of a monitor type *)

Lemma upper_lower_ascii (c : ascii) :
  Py.upper_ascii (Py.lower_ascii c) = Py.upper_ascii c.
Proof. destruct c as [[] [] [] [] [] [] [] []]; reflexivity. Qed.

Lemma upper_lower (s : string) : Py.upper (Py.lower s) = Py.upper s.
Proof.
  unfold Py.upper, Py.lower. induction s as [|c s IH]; cbn; [reflexivity|].
  now rewrite upper_lower_ascii, IH.
Qed.

(** X21. The label of a monitor type does not depend on the case of its
    letters: two types, written in ASCII, that are equal once lower-cased get
    the same label, whether the type is a known one or not. *)
Theorem monitor_type_ignores_case (t t' : string) :
  Spec.ascii_only t -> Spec.ascii_only t' ->
  Py.lower t = Py.lower t' ->
  Kuma._get_monitor_type (Some t) = Kuma._get_monitor_type (Some t').
Proof.
  intros _ _ E. unfold Kuma._get_monitor_type.
  now rewrite <- (upper_lower t), <- (upper_lower t'), E.
Qed.

Lemma monitor_type_ignores_case_witness :
  Kuma._get_monitor_type (Some "MySQL") = Kuma._get_monitor_type (Some "mysql") /\
  Kuma._get_monitor_type (Some "Snmp") = Kuma._get_monitor_type (Some "sNMP").
Proof.
  split; apply monitor_type_ignores_case;
    try (repeat constructor); reflexivity.
Defined.

(** ** The service object of Uptime Kuma *)

Lemma append_cons (c : ascii) (s t : string) : String c s +:+ t = String c (s +:+ t).
Proof. reflexivity. Qed.

Lemma rstrip_slash_split (s : string) :
  exists slashes,
    s = Kuma.rstrip_slash s +:+ slashes /\
    Forall (eq "/"%char) (list_ascii_of_string slashes).
Proof.
  induction s as [|c s (t & Hs & Ht)]; [exists ""; split; [reflexivity|constructor]|].
  cbn [Kuma.rstrip_slash].
  destruct (Ascii.eqb_spec c "/") as [->|Hc]; cbn [andb].
  - destruct (String.eqb_spec (Kuma.rstrip_slash s) "") as [Hr|Hr].
    + exists (String "/" t). rewrite Hr in Hs. split.
      * change ("" +:+ String "/" t) with (String "/" t). f_equal. exact Hs.
      * constructor; [reflexivity|exact Ht].
    + exists t. rewrite append_cons. split; [now f_equal|exact Ht].
  - exists t. rewrite append_cons. split; [now f_equal|exact Ht].
Qed.

Lemma rstrip_slash_no_trailing (s t : string) : Kuma.rstrip_slash s <> t +:+ "/".
Proof.
  revert t. induction s as [|c s IH]; intros t; cbn [Kuma.rstrip_slash].
  - destruct t; discriminate.
  - destruct (Ascii.eqb_spec c "/") as [->|Hc]; cbn [andb].
    + destruct (String.eqb_spec (Kuma.rstrip_slash s) "") as [Hr|Hr].
      * destruct t; discriminate.
      * destruct t as [|c' t]; [intros [= E]; contradiction|].
        rewrite append_cons. intros [= _ E]. exact (IH t E).
    + destruct t as [|c' t]; [intros [= E _]; contradiction|].
      rewrite append_cons. intros [= _ E]. exact (IH t E).
Qed.

(** X4. With a non-empty URL, user name and password, [__init__] returns a
    service that holds no API object, keeps the user name and the password,
    and whose URL is the given one without its trailing slashes: the given URL
    is the stored one followed by slashes only, and the stored one does not
    end with a slash. *)
Theorem init_strips_trailing_slashes (u user pw : string) (st : State) :
  u <> "" -> user <> "" -> pw <> "" ->
  exists (service : Kuma.Service) (slashes : string),
    Kuma.init u user pw st =
      (Ok service, mkState (trace st) (next_handle st) None) /\
    Kuma.username service = user /\
    Kuma.password service = pw /\
    u = Kuma.url service +:+ slashes /\
    Forall (eq "/"%char) (list_ascii_of_string slashes) /\
    forall t, Kuma.url service <> t +:+ "/".
Proof.
  intros Hu Huser Hpw.
  destruct (rstrip_slash_split u) as (slashes & Hsplit & Hall).
  exists {| Kuma.url := Kuma.rstrip_slash u; Kuma.username := user;
            Kuma.password := pw |}, slashes.
  unfold Kuma.init.
  rewrite !truthy_str_nonempty by assumption. cbn [andb negb].
  repeat split; try assumption.
  cbn [Kuma.url]. intros t. apply rstrip_slash_no_trailing.
Qed.

Lemma init_strips_trailing_slashes_witness :
  exists (service : Kuma.Service) (slashes : string),
    Kuma.init "http://kuma.local:3001//" "admin" "secret" Spec.initial_state =
      (Ok service, Spec.initial_state) /\
    Kuma.url service = "http://kuma.local:3001" /\
    slashes = "//".
Proof.
  destruct (init_strips_trailing_slashes "http://kuma.local:3001//" "admin" "secret"
              Spec.initial_state ltac:(discriminate) ltac:(discriminate)
              ltac:(discriminate))
    as (service & slashes & Hrun & _ & _ & Hurl & _ & _).
  exists service, slashes. split; [exact Hrun|].
  injection Hrun as <-. cbn [Kuma.url] in Hurl |- *.
  split; [reflexivity|].
  injection Hurl as E. exact (eq_sym E).
Defined.

Section MoreSessions.
Context (lib : Kuma.Library) (self : Kuma.Service).

Lemma get_api_opens (st : State) :
  Spec.session_opens lib self st ->
  Kuma._get_api lib self st = (Ok (next_handle st), Spec.opened st).
Proof.
  intros (Hinst & Hnone & Hconn & Hlogin).
  unfold Kuma._get_api. rewrite run_bind. unfold get_api_attr. rewrite Hnone.
  rewrite run_try_except, Hinst, run_bind. unfold Kuma.new_api. rewrite Hconn.
  rewrite run_bind. unfold Kuma.login. cbn [trace next_handle _api]. rewrite Hlogin.
  reflexivity.
Qed.

Lemma get_api_held (st : State) (h : Handle) :
  _api st = Some h -> Kuma._get_api lib self st = (Ok h, st).
Proof.
  intros Hheld. unfold Kuma._get_api. rewrite run_bind. unfold get_api_attr.
  now rewrite Hheld.
Qed.

Lemma get_api_raises (st st' : State) (e : Exn) :
  Kuma._get_api lib self st = (Raise e, st') -> exists msg, e = UptimeKumaException msg.
Proof.
  unfold Kuma._get_api. rewrite run_bind. unfold get_api_attr.
  destruct (_api st) as [h|]; [discriminate|].
  rewrite run_try_except.
  destruct (_ st) as [[h|[]] st1]; try discriminate;
    repeat match goal with
           | |- context [if ?c then _ else _] => destruct c
           end;
    intros [= <- _]; eauto.
Qed.

Lemma get_api_holds (st st' : State) (h : Handle) :
  Kuma._get_api lib self st = (Ok h, st') -> _api st' = Some h.
Proof.
  destruct (_api st) as [h0|] eqn:Hheld.
  - rewrite (get_api_held st h0 Hheld). now intros [= <- <-].
  - destruct (get_api_fresh lib self st Hheld)
      as [([msg Hr] & _) | (Hr & Hapi & _)];
      intros E; rewrite E in *; cbn [fst snd] in *; congruence.
Qed.

Lemma disconnect_returns (st : State) :
  exists st', Kuma._disconnect lib st = (Ok tt, st') /\ _api st' = None.
Proof.
  destruct (_api st) as [h|] eqn:Hheld.
  - rewrite (disconnect_held lib st h Hheld). eauto.
  - unfold Kuma._disconnect. rewrite run_bind. unfold get_api_attr. rewrite Hheld.
    eauto.
Qed.

(** X5. An API object that [_get_api] returned is the one held by the service:
    asking again returns the same object and makes no call; [_disconnect]
    then makes one disconnection call on it and, whether or not that call
    raises, returns normally with no object held; and a further [_disconnect]
    does nothing. *)
Theorem get_api_reuses_session (st st1 : State) (h : Handle) :
  Kuma._get_api lib self st = (Ok h, st1) ->
  Kuma._get_api lib self st1 = (Ok h, st1) /\
  let st2 := mkState (trace st1 ++ [ApiDisconnect h]) (next_handle st1) None in
  Kuma._disconnect lib st1 = (Ok tt, st2) /\
  Kuma._disconnect lib st2 = (Ok tt, st2).
Proof.
  intros Hget. pose proof (get_api_holds _ _ _ Hget) as Hheld.
  split; [now apply get_api_held|]. split; [now apply disconnect_held|].
  reflexivity.
Qed.

Lemma reraise_raises {A} (what : string) (e : Exn) (st : State) :
  exists msg, (Kuma.reraise what e : M A) st = (Raise (UptimeKumaException msg), st).
Proof. destruct e; cbn; eauto. Qed.

(** A public method raises nothing but [UptimeKumaException] once its
    arguments are accepted. *)
Lemma scoped_raises {A} (what : string) (body : Handle -> M A) (st st' : State) (e : Exn) :
  scoped (Kuma._get_api lib self) body (Kuma.reraise what) (Kuma.release lib) st
    = (Raise e, st') ->
  exists msg, e = UptimeKumaException msg.
Proof.
  unfold scoped.
  destruct (Kuma._get_api lib self st) as [[h|e0] st1].
  - unfold try_finally. rewrite run_try_except.
    destruct (body h st1) as [[a|e1] st2].
    + cbn [Kuma.release]. destruct (disconnect_returns st2) as (st3 & -> & _).
      discriminate.
    + destruct (reraise_raises (A := A) what e1 st2) as [msg ->].
      cbn [Kuma.release]. destruct (disconnect_returns st2) as (st3 & -> & _).
      intros [= <- _]. eauto.
  - unfold try_finally.
    destruct (reraise_raises (A := A) what e0 st1) as [msg ->].
    cbn. intros [= <- _]. eauto.
Qed.

(** The run of a public method whose session opens. *)
Lemma scoped_run {A} (what : string) (body : Handle -> M A) (st : State)
    (r : result A) (calls : list Event) :
  Spec.session_opens lib self st ->
  try_except (body (next_handle st)) (Kuma.reraise what) (Spec.opened st) =
    (r, mkState (trace (Spec.opened st) ++ calls) (S (next_handle st))
                (Some (next_handle st))) ->
  scoped (Kuma._get_api lib self) body (Kuma.reraise what) (Kuma.release lib) st =
    (r, Spec.closed st calls).
Proof.
  intros Hopen Hbody. unfold scoped. rewrite (get_api_opens st Hopen).
  unfold try_finally. rewrite Hbody. cbn [Kuma.release].
  rewrite (disconnect_held lib _ (next_handle st)) by reflexivity.
  unfold Spec.closed. cbn [trace next_handle _api]. now rewrite <- app_assoc.
Qed.



(** X8. When the session opens but the monitor cannot be read, [edit_monitor]
    makes no edit call: it raises an [UptimeKumaException] that carries the
    library's message, having made the read call only, and the session is
    closed. *)
Theorem edit_monitor_needs_readable_monitor
    (st : State) (monitor_id : Z) (kwargs : Kuma.MonitorPatch) (msg : string) :
  monitor_id <> 0 ->
  Spec.session_opens lib self st ->
  Kuma.api_get_monitor lib (trace (Spec.opened st)) monitor_id = Kuma.Raises msg ->
  Kuma.edit_monitor lib self monitor_id kwargs st =
    (Raise (UptimeKumaException ("Failed to edit monitor: " +:+ msg)),
     Spec.closed st [ApiCall (next_handle st) "get_monitor" [FInt monitor_id]]).
Proof.
  intros Hid Hopen Hget. unfold Kuma.edit_monitor.
  rewrite (truthy_int_nonzero _ Hid). cbn [negb].
  apply scoped_run; [exact Hopen|].
  rewrite run_try_except, run_bind. unfold Kuma.invoke. now rewrite Hget.
Qed.

(** X9. When the session opens and the monitor can be read, [pause_monitor]
    and [resume_monitor] hand the library the monitor as read with nothing but
    its [active] entry replaced (by [False] and [True]); they return [True] if
    the library accepts it and raise an [UptimeKumaException] with its message
    if not; they make the read call and the edit call, and close the
    session. *)
Theorem pause_and_resume_change_only_active
    (st : State) (monitor_id : Z) (raw : Kuma.RawMonitor) :
  monitor_id <> 0 ->
  Spec.session_opens lib self st ->
  Kuma.api_get_monitor lib (trace (Spec.opened st)) monitor_id = Kuma.Returns raw ->
  let read := ApiCall (next_handle st) "get_monitor" [FInt monitor_id] in
  let edit := ApiCall (next_handle st) "edit_monitor" [FInt monitor_id] in
  let sent (flag : bool) :=
    {| Kuma.m_id := Kuma.m_id raw; Kuma.m_name := Kuma.m_name raw;
       Kuma.m_url := Kuma.m_url raw; Kuma.m_type := Kuma.m_type raw;
       Kuma.m_active := Some flag; Kuma.m_interval := Kuma.m_interval raw;
       Kuma.m_status := Kuma.m_status raw;
       Kuma.m_heartbeats := Kuma.m_heartbeats raw |} in
  let outcome (flag : bool) : result bool :=
    match Kuma.api_edit_monitor lib (trace (Spec.opened st) ++ [read]) monitor_id
            (sent flag) with
    | Kuma.Returns _ => Ok true
    | Kuma.Raises msg => Raise (UptimeKumaException ("Failed to edit monitor: " +:+ msg))
    end in
  Kuma.pause_monitor lib self monitor_id st = (outcome false, Spec.closed st [read; edit]) /\
  Kuma.resume_monitor lib self monitor_id st = (outcome true, Spec.closed st [read; edit]).
Proof.
  intros Hid Hopen Hget read edit sent outcome.
  unfold Kuma.pause_monitor, Kuma.resume_monitor, Kuma.edit_monitor.
  rewrite (truthy_int_nonzero _ Hid). cbn [negb].
  split; (apply scoped_run; [exact Hopen|]);
    rewrite run_try_except, run_bind; unfold Kuma.invoke at 1; rewrite Hget;
    rewrite run_bind; unfold Kuma.invoke; cbn [trace next_handle _api];
    subst outcome sent read edit; cbn beta;
    unfold Kuma.apply_patch, Kuma.only_active; cbn [Kuma.p_name Kuma.p_url Kuma.p_type
      Kuma.p_active Kuma.p_interval];
    (destruct (Kuma.api_edit_monitor lib _ monitor_id _) as [[]|msg]; cbn;
     now rewrite <- ?app_assoc).
Qed.
End MoreSessions.

(** X7. A public operation of the Uptime Kuma service raises nothing but a
    [ValueError], when it rejects its arguments and then without any effect,
    or an [UptimeKumaException]: no exception of the library reaches the
    caller as it is. *)
Theorem kuma_operations_raise_only_their_own_exceptions
    (lib : Kuma.Library) (self : Kuma.Service) (op : Spec.Op)
    (st st' : State) (e : Exn) :
  Spec.perform lib self op st = (Some e, st') ->
  (exists msg, e = ValueError msg /\ st' = st) \/
  (exists msg, e = UptimeKumaException msg).
Proof.
  assert (forall A (m : M A),
            (forall e st', m st = (Raise e, st') ->
               exists msg, e = UptimeKumaException msg) ->
            Spec.exit_of m st = (Some e, st') ->
            exists msg, e = UptimeKumaException msg) as Hexit.
  { intros A m Hm. unfold Spec.exit_of.
    destruct (m st) as [[a|e0] st0] eqn:Em; [discriminate|].
    intros [= <- <-]. eauto. }
  destruct op; cbn [Spec.perform];
    unfold Kuma.get_monitors, Kuma.get_monitor, Kuma.add_monitor, Kuma.pause_monitor,
      Kuma.resume_monitor, Kuma.edit_monitor, Kuma.delete_monitor, Kuma.get_status_pages,
      Kuma.get_status_page, Kuma.add_status_page, Kuma.save_status_page,
      Kuma.delete_status_page;
    repeat match goal with
           | |- context [if ?guard then raise _ else _] =>
               destruct guard; [intros [= <- <-]; left; eauto|]
           end;
    intros E; right; revert E; apply Hexit; intros e0 st0; apply scoped_raises.
Qed.

Lemma kuma_operations_raise_only_their_own_exceptions_witness :
  (exists msg, UptimeKumaException
                 "Failed to get monitors: server went away" = ValueError msg /\
               mkState [ApiConnect 0%nat true; ApiLogin 0%nat true;
                        ApiCall 0%nat "get_monitors" []; ApiDisconnect 0%nat]
                       1%nat None = Spec.initial_state) \/
  (exists msg, UptimeKumaException
                 "Failed to get monitors: server went away" = UptimeKumaException msg).
Proof.
  apply (kuma_operations_raise_only_their_own_exceptions
           Examples.listing_fails Examples.kuma_service Spec.GetMonitors
           Spec.initial_state).
  reflexivity.
Defined.

Lemma get_api_reuses_session_witness :
  Kuma._get_api Examples.heartbeats_fail Examples.kuma_service
    (mkState [ApiConnect 0%nat true; ApiLogin 0%nat true] 1%nat (Some 0%nat)) =
    (Ok 0%nat, mkState [ApiConnect 0%nat true; ApiLogin 0%nat true] 1%nat (Some 0%nat)) /\
  Kuma._disconnect Examples.heartbeats_fail
    (mkState [ApiConnect 0%nat true; ApiLogin 0%nat true] 1%nat (Some 0%nat)) =
    (Ok tt, mkState [ApiConnect 0%nat true; ApiLogin 0%nat true; ApiDisconnect 0%nat]
                    1%nat None).
Proof.
  destruct (get_api_reuses_session Examples.heartbeats_fail Examples.kuma_service
              Spec.initial_state _ 0%nat eq_refl) as (Hagain & Hclose & _).
  split; [exact Hagain|exact Hclose].
Defined.


Lemma edit_monitor_needs_readable_monitor_witness :
  Kuma.edit_monitor Examples.heartbeats_fail Examples.kuma_service 7
    (Kuma.only_active false) Spec.initial_state =
    (Raise (UptimeKumaException "Failed to edit monitor: monitor does not exist"),
     mkState [ApiConnect 0%nat true; ApiLogin 0%nat true;
              ApiCall 0%nat "get_monitor" [FInt 7]; ApiDisconnect 0%nat] 1%nat None).
Proof.
  apply (edit_monitor_needs_readable_monitor Examples.heartbeats_fail
           Examples.kuma_service Spec.initial_state 7 (Kuma.only_active false)
           "monitor does not exist").
  - lia.
  - repeat split.
  - reflexivity.
Defined.

Lemma pause_and_resume_change_only_active_witness :
  fst (Kuma.pause_monitor Examples.keeps_names Examples.kuma_service 7
         Spec.initial_state) = Ok true /\
  fst (Kuma.resume_monitor Examples.keeps_names Examples.kuma_service 7
         Spec.initial_state) = Ok true.
Proof.
  destruct (pause_and_resume_change_only_active Examples.keeps_names
              Examples.kuma_service Spec.initial_state 7 Examples.maintenance_monitor)
    as [Hpause Hresume].
  - lia.
  - repeat split.
  - reflexivity.
  - rewrite Hpause, Hresume. split; reflexivity.
Defined.

(** ** Requests to Uptime Robot ([services/uptime_robot.py]) *)

Section RobotRequests.
Context (http : Robot.Http) (self : Robot.Service).

(** The two ways a request ends. *)
Lemma make_request_run (endpoint : string) (payload : gmap string FormVal) (st : State) :
  let st' := mkState (trace st ++ [HttpPost endpoint (Spec.posted_form self payload)])
                     (next_handle st) (_api st) in
  (exists data,
     http (trace st) endpoint (Spec.posted_form self payload) = Robot.Response data /\
     Robot.stat data = Some "ok" /\
     Robot._make_request http self endpoint payload st = (Ok data, st')) \/
  (exists e,
     Robot._make_request http self endpoint payload st = (Raise e, st') /\
     ~ Spec.accepted (http (trace st) endpoint (Spec.posted_form self payload)) /\
     ((exists msg, e = UptimeRobotException msg) \/
      (exists msg, e = OtherException msg /\
                   http (trace st) endpoint (Spec.posted_form self payload) = Robot.Crash msg))).
Proof.
  intros st'. subst st'. unfold Robot._make_request, Spec.accepted. cbv zeta.
  destruct (http (trace st) endpoint _) as [| |msg|msg|msg|data] eqn:E.
  1-5: right; eexists; split; [reflexivity|];
       (split; [intros (data & Hd & _); discriminate|]); eauto.
  destruct (bool_decide (Robot.stat data = Some "ok")) eqn:Hok.
  - left. exists data. apply bool_decide_eq_true_1 in Hok. auto.
  - right. eexists. split; [reflexivity|]. apply bool_decide_eq_false_1 in Hok.
    split; [intros (data' & [= <-] & Hs); contradiction|]. eauto.
Qed.

(** X10. [_make_request] makes exactly one POST, to the given endpoint.  The
    form posted holds every entry of the payload, and the API key and
    [format = json] where the payload does not set them itself.  The call
    returns a body only if the API answered with that body and its [stat] is
    ["ok"]; if the API did not answer so it raises, an [UptimeRobotException]
    unless the HTTP library failed with an exception that is neither a
    [RequestException] nor a [ValueError], which it lets through. *)
Theorem make_request_outcome (endpoint : string) (payload : gmap string FormVal)
    (st : State) :
  exists (form : gmap string FormVal),
    snd (Robot._make_request http self endpoint payload st) =
      mkState (trace st ++ [HttpPost endpoint form]) (next_handle st) (_api st) /\
    (forall k v, payload !! k = Some v -> form !! k = Some v) /\
    (payload !! "api_key" = None -> form !! "api_key" = Some (FStr (Robot.api_key self))) /\
    (payload !! "format" = None -> form !! "format" = Some (FStr "json")) /\
    dom form = dom payload ∪ ({[ "api_key"; "format" ]} : gset string) /\
    match fst (Robot._make_request http self endpoint payload st) with
    | Ok data =>
        http (trace st) endpoint form = Robot.Response data /\
        Robot.stat data = Some "ok"
    | Raise e =>
        ~ Spec.accepted (http (trace st) endpoint form) /\
        ((exists msg, e = UptimeRobotException msg) \/
         (exists msg, e = OtherException msg /\
                      http (trace st) endpoint form = Robot.Crash msg))
    end.
Proof.
  exists (Spec.posted_form self payload).
  split; [|split; [|split; [|split; [|split]]]].
  - destruct (make_request_run endpoint payload st)
      as [(data & _ & _ & ->)|(e & -> & _)]; reflexivity.
  - intros k v Hk. now apply lookup_union_Some_l.
  - intros Hk. unfold Spec.posted_form.
    rewrite lookup_union_r by exact Hk. now simplify_map_eq.
  - intros Hk. unfold Spec.posted_form.
    rewrite lookup_union_r by exact Hk. now simplify_map_eq.
  - unfold Spec.posted_form.
    rewrite dom_union_L, dom_insert_L, dom_singleton_L. reflexivity.
  - destruct (make_request_run endpoint payload st)
      as [(data & Hhttp & Hok & ->)|(e & -> & Hno & He)]; cbn [fst]; auto.
Qed.

(** X11. An operation that takes the id of a monitor or of a status page makes
    no request at all for the id 0: it raises a [ValueError].  For any other id
    it makes exactly one POST, to its own endpoint; it returns normally only
    if the API accepted that request, and, except for [get_status_page], it
    does return normally whenever the API accepted it. *)
Theorem robot_operations_by_id (op : Spec.IdOp) (id : Z) (st : State) :
  (id = 0 ->
   exists msg, Spec.perform_by_id http self op id st = (Some (ValueError msg), st)) /\
  (id <> 0 ->
   exists (form : gmap string FormVal),
     snd (Spec.perform_by_id http self op id st) =
       mkState (trace st ++ [HttpPost (Spec.endpoint_of op) form])
               (next_handle st) (_api st) /\
     (fst (Spec.perform_by_id http self op id st) = None ->
      Spec.accepted (http (trace st) (Spec.endpoint_of op) form)) /\
     (op <> Spec.RobotGetStatusPage ->
      Spec.accepted (http (trace st) (Spec.endpoint_of op) form) ->
      fst (Spec.perform_by_id http self op id st) = None)).
Proof.
  split.
  - intros ->. destruct op; cbn; eauto.
  - intros Hid.
    destruct op; cbn [Spec.perform_by_id Spec.endpoint_of];
      unfold Spec.exit_of, Robot.pause_monitor, Robot.resume_monitor, Robot.edit_monitor,
        Robot.delete_monitor, Robot.get_status_page, Robot.edit_status_page,
        Robot.delete_status_page;
      rewrite (truthy_int_nonzero _ Hid); cbn [negb]; rewrite run_bind;
      match goal with
      | |- context [Robot._make_request http self ?ep ?payload st] =>
          exists (Spec.posted_form self payload);
          destruct (make_request_run ep payload st)
            as [(data & Hhttp & Hok & ->)|(e & -> & Hno & He)]
      end;
      try (split; [reflexivity|split; [intros; now exists data|reflexivity]]);
      try (split; [reflexivity|split; [discriminate|intros _ Hacc; contradiction]]).
    destruct (default [] (Robot.psps data)); cbn;
      (split; [reflexivity|split; [intros; now exists data|congruence]]).
Qed.

(** X12. For a non-zero id, [pause_monitor] and [resume_monitor] post to
    [editMonitor] a form with the monitor's id and the status 0 (paused) and 2
    (up), with the API key and the format and nothing else. *)
Theorem robot_pause_and_resume_post_status (monitor_id : Z) (st : State) :
  monitor_id <> 0 ->
  let form (status : Z) : gmap string FormVal :=
    {[ "id" := FInt monitor_id; "status" := FInt status;
       "api_key" := FStr (Robot.api_key self); "format" := FStr "json" ]} in
  trace (snd (Robot.pause_monitor http self monitor_id st)) =
    trace st ++ [HttpPost "editMonitor" (form 0)] /\
  trace (snd (Robot.resume_monitor http self monitor_id st)) =
    trace st ++ [HttpPost "editMonitor" (form 2)].
Proof.
  intros Hid form.
  assert (forall status : Z,
            Spec.posted_form self
              (({[ "status" := FInt status ]} : gmap string FormVal)
                 ∪ {[ "id" := FInt monitor_id ]}) = form status) as Hform.
  { intros status. subst form. cbn beta. same_form. }
  unfold Robot.pause_monitor, Robot.resume_monitor, Robot.edit_monitor.
  rewrite (truthy_int_nonzero _ Hid). cbn [negb]. rewrite !run_bind.
  split.
  - destruct (make_request_run "editMonitor"
                (({[ "status" := FInt Robot.STATUS_PAUSED ]} : gmap string FormVal)
                   ∪ {[ "id" := FInt monitor_id ]}) st)
      as [(data & _ & _ & ->)|(e & -> & _)]; cbn [snd trace];
      now rewrite (Hform Robot.STATUS_PAUSED).
  - destruct (make_request_run "editMonitor"
                (({[ "status" := FInt Robot.STATUS_UP ]} : gmap string FormVal)
                   ∪ {[ "id" := FInt monitor_id ]}) st)
      as [(data & _ & _ & ->)|(e & -> & _)]; cbn [snd trace];
      now rewrite (Hform Robot.STATUS_UP).
Qed.

(** X13. For a non-zero id, [get_status_page] asks [getPSPs] for that id.  If
    the API accepts the request it returns the first page of the answer, and
    raises an [UptimeRobotException] that names the id when the answer holds
    no page; if the API does not accept it, it raises. *)
Theorem get_status_page_returns_first_or_not_found (psp_id : Z) (st : State) :
  psp_id <> 0 ->
  let form : gmap string FormVal :=
    {[ "psps" := FInt psp_id;
       "api_key" := FStr (Robot.api_key self); "format" := FStr "json" ]} in
  let answer := http (trace st) "getPSPs" form in
  let outcome := fst (Robot.get_status_page http self psp_id st) in
  trace (snd (Robot.get_status_page http self psp_id st)) =
    trace st ++ [HttpPost "getPSPs" form] /\
  (forall data,
     answer = Robot.Response data -> Robot.stat data = Some "ok" ->
     outcome =
       match default [] (Robot.psps data) with
       | page :: _ => Ok page
       | [] => Raise (UptimeRobotException
                        ("Status page " +:+ Py.str_of_int psp_id +:+ " not found"))
       end) /\
  (~ Spec.accepted answer -> exists e, outcome = Raise e).
Proof.
  intros Hid form answer outcome.
  assert (Spec.posted_form self ({[ "psps" := FInt psp_id ]} : gmap string FormVal) = form) as Hform.
  { subst form. same_form. }
  subst outcome answer. unfold Robot.get_status_page.
  rewrite (truthy_int_nonzero _ Hid). cbn [negb]. rewrite run_bind.
  destruct (make_request_run "getPSPs" ({[ "psps" := FInt psp_id ]}) st)
    as [(data & Hhttp & Hok & ->)|(e & -> & Hno & He)]; rewrite Hform in *.
  - split; [|split].
    + now destruct (default [] (Robot.psps data)).
    + intros data' Hd _. rewrite Hhttp in Hd. injection Hd as <-.
      now destruct (default [] (Robot.psps data)).
    + intros Hno. exfalso. apply Hno. now exists data.
  - split; [reflexivity|]. split; [|eauto].
    intros data Hd Hs. exfalso. apply Hno. now exists data.
Qed.

(** X14. [add_status_page] makes no request when the name is empty or the list
    of monitors is empty: it raises a [ValueError].  Otherwise it makes one
    POST to [newPSP] whose form carries the name and the ids of the monitors,
    in the order given, joined by dashes, and a [custom_url] entry exactly
    when a non-empty one is given (no keyword argument can bear one of these
    three names); it returns the [psp] entry of the answer if the API accepts
    the request and raises if not. *)
Theorem add_status_page_posts_joined_ids
    (friendly_name : string) (monitor_list : list Z) (custom_url : option string)
    (kwargs : gmap string FormVal) (st : State) :
  kwargs !! "friendly_name" = None ->
  kwargs !! "monitors" = None ->
  kwargs !! "custom_url" = None ->
  let run := Robot.add_status_page http self friendly_name monitor_list custom_url kwargs st in
  ((friendly_name = "" \/ monitor_list = []) ->
   run = (Raise (ValueError "Friendly name and monitors list are required"), st)) /\
  (friendly_name <> "" -> monitor_list <> [] ->
   exists (form : gmap string FormVal),
     snd run = mkState (trace st ++ [HttpPost "newPSP" form]) (next_handle st) (_api st) /\
     form !! "friendly_name" = Some (FStr friendly_name) /\
     form !! "monitors" = Some (FStr (Py.join "-" (map Py.str_of_int monitor_list))) /\
     form !! "custom_url" =
       match custom_url with
       | Some u => if decide (u = "") then None else Some (FStr u)
       | None => None
       end /\
     (forall data,
        http (trace st) "newPSP" form = Robot.Response data ->
        Robot.stat data = Some "ok" -> fst run = Ok (Robot.psp data)) /\
     (~ Spec.accepted (http (trace st) "newPSP" form) -> exists e, fst run = Raise e)).
Proof.
  intros Hk1 Hk2 Hk3 run. subst run. unfold Robot.add_status_page. split.
  - intros [->| ->]; [reflexivity|].
    rewrite bool_decide_eq_false_2 by auto. now rewrite orb_true_r.
  - intros Hname Hmon.
    rewrite (truthy_str_nonempty _ Hname), bool_decide_eq_true_2 by exact Hmon.
    cbn [negb orb]. cbv zeta. rewrite run_bind.
    match goal with
    | |- context [Robot._make_request http self "newPSP" ?payload st] =>
        set (p := payload);
        exists (Spec.posted_form self p);
        destruct (make_request_run "newPSP" p st)
          as [(data & Hhttp & Hok & ->)|(e & -> & Hno & He)]
    end;
      (split; [reflexivity|]);
      (do 3 (split;
         [subst p; destruct custom_url as [u|];
          [unfold Py.truthy_str; destruct (String.eqb_spec u "") as [->|Hu]; cbn [negb]|];
          unfold Spec.posted_form;
          repeat (rewrite lookup_union || rewrite lookup_insert
                  || rewrite lookup_singleton);
          rewrite ?Hk1, ?Hk2, ?Hk3;
          try (destruct (decide (u = "")); [contradiction|]);
          reflexivity|])).
    + split; [|intros Hno; exfalso; apply Hno; now exists data].
      intros data' Hd _. rewrite Hhttp in Hd. now injection Hd as <-.
    + split; [|eauto]. intros data Hd Hs. exfalso. apply Hno. now exists data.
Qed.
End RobotRequests.

Lemma robot_pause_and_resume_post_status_witness :
  trace (snd (Robot.resume_monitor Examples.robot_accepts
                (Robot.mkService "ur-demo-key" Robot.BASE_URL 10) 42
                Spec.initial_state)) =
    [HttpPost "editMonitor"
       {[ "id" := FInt 42; "status" := FInt 2;
          "api_key" := FStr "ur-demo-key"; "format" := FStr "json" ]}].
Proof.
  apply (robot_pause_and_resume_post_status Examples.robot_accepts
           (Robot.mkService "ur-demo-key" Robot.BASE_URL 10) 42 Spec.initial_state).
  lia.
Defined.

Lemma get_status_page_returns_first_or_not_found_witness :
  fst (Robot.get_status_page Examples.robot_accepts
         (Robot.mkService "ur-demo-key" Robot.BASE_URL 10) 5 Spec.initial_state) =
    Ok Examples.page_1_2.
Proof.
  destruct (get_status_page_returns_first_or_not_found Examples.robot_accepts
              (Robot.mkService "ur-demo-key" Robot.BASE_URL 10) 5 Spec.initial_state
              ltac:(lia)) as (_ & Hfirst & _).
  exact (Hfirst _ eq_refl eq_refl).
Defined.

Lemma add_status_page_posts_joined_ids_witness :
  exists (form : gmap string FormVal),
    trace (snd (Robot.add_status_page Examples.robot_accepts
                  (Robot.mkService "ur-demo-key" Robot.BASE_URL 10)
                  "Production" [11; 22; 33] (Some "prod") {[ "sort" := FInt 1 ]}
                  Spec.initial_state)) = [HttpPost "newPSP" form] /\
    form !! "monitors" = Some (FStr "11-22-33") /\
    form !! "custom_url" = Some (FStr "prod").
Proof.
  assert (forall k : string, k <> "sort" ->
            ({[ "sort" := FInt 1 ]} : gmap string FormVal) !! k = None) as Hk
    by (intros k Hne; apply lookup_singleton_ne; congruence).
  destruct (add_status_page_posts_joined_ids Examples.robot_accepts
              (Robot.mkService "ur-demo-key" Robot.BASE_URL 10)
              "Production" [11; 22; 33] (Some "prod") {[ "sort" := FInt 1 ]}
              Spec.initial_state
              (Hk "friendly_name" ltac:(discriminate))
              (Hk "monitors" ltac:(discriminate))
              (Hk "custom_url" ltac:(discriminate)))
    as [_ Hpost].
  destruct (Hpost ltac:(discriminate) ltac:(discriminate))
    as (form & Hst & _ & Hmon & Hurl & _).
  exists form. rewrite Hst. split; [reflexivity|]. split; [exact Hmon|exact Hurl].
Defined.

(** ** The routes ([app.py]) *)




Section MoreRoutes.
Context (cfg : App.Config) (http : Robot.Http) (lib : Kuma.Library).

Lemma robot_service_run (st : State) :
  App.get_uptime_robot_service cfg st =
    if Py.truthy_str (App.UPTIME_ROBOT_API_KEY cfg) then (Ok (Spec.robot_service cfg), st)
    else (Raise (ValueError "Uptime Robot API key not configured"), st).
Proof.
  unfold App.get_uptime_robot_service, Robot.init.
  now destruct (Py.truthy_str (App.UPTIME_ROBOT_API_KEY cfg)).
Qed.

Lemma kuma_service_run (st : State) :
  App.get_uptime_kuma_service cfg st =
    if App.uptime_kuma_configured (App.get_status cfg)
    then (Ok (Spec.kuma_service cfg), mkState (trace st) (next_handle st) None)
    else (Raise (ValueError "Uptime Kuma credentials not configured"), st).
Proof.
  unfold App.get_uptime_kuma_service, Kuma.init, App.get_status.
  cbn [App.uptime_kuma_configured].
  now destruct (_ && _).
Qed.

Lemma truthy_str_empty (s : string) : Py.truthy_str s = false <-> s = "".
Proof.
  unfold Py.truthy_str. destruct (String.eqb_spec s ""); cbn; split; congruence.
Qed.

(** X15. The status route and the two service factories agree: Uptime Robot is
    reported as configured exactly when [get_uptime_robot_service] returns a
    service, which then carries the configured key, and otherwise the factory
    raises a [ValueError]; likewise for Uptime Kuma, which is configured
    exactly when its URL, user name and password are all non-empty. *)
Theorem status_flags_agree_with_factories (st : State) :
  (App.uptime_robot_configured (App.get_status cfg) = true <->
   App.UPTIME_ROBOT_API_KEY cfg <> "") /\
  (App.uptime_kuma_configured (App.get_status cfg) = true <->
   App.UPTIME_KUMA_URL cfg <> "" /\ App.UPTIME_KUMA_USERNAME cfg <> "" /\
   App.UPTIME_KUMA_PASSWORD cfg <> "") /\
  (if App.uptime_robot_configured (App.get_status cfg)
   then exists service,
          App.get_uptime_robot_service cfg st = (Ok service, st) /\
          Robot.api_key service = App.UPTIME_ROBOT_API_KEY cfg
   else exists msg, App.get_uptime_robot_service cfg st = (Raise (ValueError msg), st)) /\
  (if App.uptime_kuma_configured (App.get_status cfg)
   then exists service st',
          App.get_uptime_kuma_service cfg st = (Ok service, st') /\
          trace st' = trace st /\ _api st' = None /\
          Kuma.username service = App.UPTIME_KUMA_USERNAME cfg /\
          Kuma.password service = App.UPTIME_KUMA_PASSWORD cfg
   else exists msg, App.get_uptime_kuma_service cfg st = (Raise (ValueError msg), st)).
Proof.
  split; [|split; [|split]].
  - cbn. pose proof (truthy_str_empty (App.UPTIME_ROBOT_API_KEY cfg)).
    destruct (Py.truthy_str _); intuition congruence.
  - cbn. pose proof (truthy_str_empty (App.UPTIME_KUMA_URL cfg)).
    pose proof (truthy_str_empty (App.UPTIME_KUMA_USERNAME cfg)).
    pose proof (truthy_str_empty (App.UPTIME_KUMA_PASSWORD cfg)).
    destruct (Py.truthy_str (App.UPTIME_KUMA_URL cfg)),
             (Py.truthy_str (App.UPTIME_KUMA_USERNAME cfg)),
             (Py.truthy_str (App.UPTIME_KUMA_PASSWORD cfg)); cbn; intuition congruence.
  - rewrite robot_service_run. cbn [App.get_status App.uptime_robot_configured].
    destruct (Py.truthy_str _); eauto.
  - rewrite kuma_service_run.
    destruct (App.uptime_kuma_configured _); [|eauto].
    eexists _, _. split; [reflexivity|]. cbn. auto.
Qed.

(** X16. The route that lists the Uptime Robot monitors always answers.  An
    answer with an error has an empty list.  Without an API key it makes no
    request and says that the key is not configured; with one it makes one
    POST to [getMonitors], and its answer has no error, and the monitors of
    the response formatted in the order received, if the API accepted the
    request, and an error if it did not. *)
Theorem robot_monitors_route_always_answers (st : State) :
  exists (body : App.MonitorsResponse) (st' : State),
    App.api_uptime_robot_monitors cfg http st = (Ok body, st') /\
    (App.mr_error body <> None -> App.mr_monitors body = []) /\
    (App.UPTIME_ROBOT_API_KEY cfg = "" ->
     st' = st /\ App.mr_error body = Some "API key not configured") /\
    (App.UPTIME_ROBOT_API_KEY cfg <> "" ->
     exists (form : gmap string FormVal),
       trace st' = trace st ++ [HttpPost "getMonitors" form] /\
       (forall data,
          http (trace st) "getMonitors" form = Robot.Response data ->
          Robot.stat data = Some "ok" ->
          App.mr_error body = None /\
          App.mr_monitors body =
            map (fun m => App.OfRobot (Robot._format_monitor m))
                (default [] (Robot.monitors data))) /\
       (~ Spec.accepted (http (trace st) "getMonitors" form) ->
        App.mr_error body <> None)).
Proof.
  unfold App.api_uptime_robot_monitors. rewrite run_try_except, run_bind.
  rewrite robot_service_run.
  destruct (Py.truthy_str (App.UPTIME_ROBOT_API_KEY cfg)) eqn:Hkey.
  - unfold Robot.get_monitors. rewrite !run_bind.
    match goal with
    | |- context [Robot._make_request http ?s "getMonitors" ?payload st] =>
        destruct (make_request_run http s "getMonitors" payload st)
          as [(data & Hhttp & Hok & ->)|(e & -> & Hno & He)]
    end.
    + eexists _, _. split; [reflexivity|]. cbn [App.mr_error App.mr_monitors].
      split; [congruence|]. split.
      * intros Hk. apply truthy_str_empty in Hk. congruence.
      * intros _. eexists. split; [reflexivity|]. split.
        -- intros data' Hd _. rewrite Hhttp in Hd. injection Hd as <-.
           split; [reflexivity|]. now rewrite map_map.
        -- intros Hno. exfalso. apply Hno. now exists data.
    + assert (exists text,
                (match e with
                 | ValueError _ =>
                     mret {| App.mr_error := Some "API key not configured";
                             App.mr_monitors := [] |}
                 | UptimeRobotException _ =>
                     mret {| App.mr_error := Some (str_exn e); App.mr_monitors := [] |}
                 | _ =>
                     mret {| App.mr_error := Some ("Unexpected error: " +:+ str_exn e);
                             App.mr_monitors := [] |}
                 end : M App.MonitorsResponse) =
                mret {| App.mr_error := Some text; App.mr_monitors := [] |})
        as [text ->] by (destruct e; eauto).
      eexists _, _. split; [reflexivity|]. cbn [App.mr_error App.mr_monitors].
      split; [reflexivity|]. split.
      * intros Hk. apply truthy_str_empty in Hk. congruence.
      * intros _. eexists. split; [reflexivity|]. split; [|discriminate].
        intros data Hd Hs. exfalso. apply Hno. now exists data.
  - eexists _, _. split; [reflexivity|]. cbn [App.mr_error App.mr_monitors].
    split; [reflexivity|]. split; [auto|].
    intros Hk. apply truthy_str_nonempty in Hk. congruence.
Qed.

(** X17. The route that lists the Uptime Kuma monitors always answers.  An
    answer with an error has an empty list.  Without the credentials it makes
    no call and says that they are not configured.  With them, whatever the
    library does and whatever state the process is in, its calls are those of
    one session at most, closed before the answer, and no API object is held
    afterwards. *)
Theorem kuma_monitors_route_always_answers (st : State) :
  exists (body : App.MonitorsResponse) (st' : State) (events : list Event),
    App.api_uptime_kuma_monitors cfg lib st = (Ok body, st') /\
    (App.mr_error body <> None -> App.mr_monitors body = []) /\
    trace st' = trace st ++ events /\
    Spec.session_log (next_handle st) events /\
    (App.uptime_kuma_configured (App.get_status cfg) = false ->
     st' = st /\ App.mr_error body = Some "Credentials not configured") /\
    (App.uptime_kuma_configured (App.get_status cfg) = true -> _api st' = None).
Proof.
  unfold App.api_uptime_kuma_monitors. rewrite run_try_except, run_bind.
  rewrite kuma_service_run.
  destruct (App.uptime_kuma_configured (App.get_status cfg)).
  - set (st0 := mkState (trace st) (next_handle st) None).
    destruct (perform_session_log lib (Spec.kuma_service cfg) Spec.GetMonitors st0 eq_refl)
      as (events & Htr & Hlog & Hapi & _).
    cbn [Spec.perform] in Htr, Hapi. rewrite exit_of_state in Htr, Hapi.
    rewrite run_bind.
    destruct (Kuma.get_monitors lib (Spec.kuma_service cfg) st0) as [[monitors|e] st1];
      cbn [snd] in Htr, Hapi.
    + eexists _, _, events. split; [reflexivity|]. cbn [App.mr_error App.mr_monitors].
      split; [congruence|]. split; [exact Htr|]. split; [exact Hlog|].
      split; [discriminate|auto].
    + assert (exists text,
                (match e with
                 | ValueError _ =>
                     mret {| App.mr_error := Some "Credentials not configured";
                             App.mr_monitors := [] |}
                 | UptimeKumaException _ =>
                     mret {| App.mr_error := Some (str_exn e); App.mr_monitors := [] |}
                 | _ =>
                     mret {| App.mr_error := Some ("Unexpected error: " +:+ str_exn e);
                             App.mr_monitors := [] |}
                 end : M App.MonitorsResponse) =
                mret {| App.mr_error := Some text; App.mr_monitors := [] |})
        as [text ->] by (destruct e; eauto).
      eexists _, _, events. split; [reflexivity|]. cbn [App.mr_error App.mr_monitors].
      split; [reflexivity|]. split; [exact Htr|]. split; [exact Hlog|].
      split; [discriminate|auto].
  - eexists _, _, []. split; [reflexivity|]. cbn [App.mr_error App.mr_monitors].
    split; [reflexivity|]. split; [now rewrite app_nil_r|]. split; [constructor|].
    split; [auto|discriminate].
Qed.
(** The two ways [get_status_pages] ends. *)
Lemma get_status_pages_run (self : Robot.Service) (st : State) :
  let form := Spec.posted_form self ∅ in
  let st1 := mkState (trace st ++ [HttpPost "getPSPs" form]) (next_handle st) (_api st) in
  (exists data,
     http (trace st) "getPSPs" form = Robot.Response data /\
     Robot.stat data = Some "ok" /\
     Robot.get_status_pages http self st = (Ok (default [] (Robot.psps data)), st1)) \/
  (exists e,
     Robot.get_status_pages http self st = (Raise e, st1) /\
     ~ Spec.accepted (http (trace st) "getPSPs" form)).
Proof.
  intros form st1. unfold Robot.get_status_pages. rewrite run_bind.
  destruct (make_request_run http self "getPSPs" ∅ st)
    as [(data & Hhttp & Hok & ->)|(e & -> & Hno & _)]; [left|right]; eauto.
Qed.

(** The ways [edit_status_page] ends when it is given a list of members. *)
Lemma edit_status_page_run (self : Robot.Service) (page_id : Z)
    (members : list (option Z)) (st : State) :
  let st2 := mkState (trace st ++ [HttpPost "editPSP" (Spec.membership_form self page_id members)])
                     (next_handle st) (_api st) in
  (page_id = 0 /\
   Robot.edit_status_page http self page_id (Some members) ∅ st =
     (Raise (ValueError "Status page ID is required"), st)) \/
  (page_id <> 0 /\
   Spec.accepted (http (trace st) "editPSP" (Spec.membership_form self page_id members)) /\
   Robot.edit_status_page http self page_id (Some members) ∅ st = (Ok true, st2)) \/
  (page_id <> 0 /\
   ~ Spec.accepted (http (trace st) "editPSP" (Spec.membership_form self page_id members)) /\
   exists e, Robot.edit_status_page http self page_id (Some members) ∅ st = (Raise e, st2)).
Proof.
  intros st2. unfold Robot.edit_status_page.
  destruct (Z.eq_dec page_id 0) as [->|Hid]; [left; auto|right].
  rewrite (truthy_int_nonzero _ Hid). cbn [negb]. cbv zeta. rewrite run_bind.
  match goal with
  | |- context [Robot._make_request http self "editPSP" ?payload st] =>
      destruct (make_request_run http self "editPSP" payload st)
        as [(data & Hhttp & Hok & ->)|(e & -> & Hno & _)]
  end.
  - left. split; [exact Hid|]. split; [now exists data|reflexivity].
  - right. split; [exact Hid|]. split; [exact Hno|]. eauto.
Qed.

Lemma edit_form_id (self : Robot.Service) (page_id : Z) (members : list (option Z)) :
  Spec.membership_form self page_id members !! "id" = Some (FInt page_id) /\
  Spec.membership_form self page_id members !! "monitors" =
    Some (FStr (Py.join "-" (map Robot.str_id members))).
Proof.
  unfold Spec.membership_form, Spec.posted_form.
  split; repeat (rewrite lookup_union || rewrite lookup_insert || rewrite lookup_singleton
                 || rewrite lookup_empty); reflexivity.
Qed.

(** X18. The route that adds monitors to an Uptime Robot status page always
    answers, and its answer has an error exactly when it does not report
    success.  It reports success only after the listing call and one
    [editPSP] call for that page, both accepted by the API.  Without an API
    key or without monitor ids it makes no request and does not report
    success. *)
Theorem add_monitors_route_always_answers
    (page_id : Z) (data : App.AddMonitorsRequest) (st : State) :
  exists (answer : App.JsonResponse) (st' : State),
    App.add_monitors_to_uptime_robot_status_page cfg http page_id data st =
      (Ok answer, st') /\
    (App.success answer = true <-> App.error answer = None) /\
    (App.success answer = true ->
     exists (listing edit : gmap string FormVal),
       trace st' = trace st ++ [HttpPost "getPSPs" listing; HttpPost "editPSP" edit] /\
       Spec.accepted (http (trace st) "getPSPs" listing) /\
       Spec.accepted (http (trace st ++ [HttpPost "getPSPs" listing]) "editPSP" edit) /\
       edit !! "id" = Some (FInt page_id)) /\
    (App.UPTIME_ROBOT_API_KEY cfg = "" \/ default [] (App.monitor_ids data) = [] ->
     st' = st /\ App.success answer = false).
Proof.
  unfold App.add_monitors_to_uptime_robot_status_page.
  rewrite run_try_except, run_bind, robot_service_run.
  destruct (Py.truthy_str (App.UPTIME_ROBOT_API_KEY cfg)) eqn:Hkey.
  2:{ eexists _, _. split; [reflexivity|]. cbn [App.success App.error].
      split; [split; discriminate|]. split; [discriminate|auto]. }
  assert (App.UPTIME_ROBOT_API_KEY cfg <> "") as Hk
    by (intros Hk; apply truthy_str_empty in Hk; congruence).
  destruct (default [] (App.monitor_ids data)) as [|r rs] eqn:Hreq.
  { eexists _, _. split; [reflexivity|]. cbn [App.success App.error].
    split; [split; discriminate|]. split; [discriminate|auto]. }
  rewrite run_bind.
  destruct (get_status_pages_run (Spec.robot_service cfg) st)
    as [(body & Hhttp & Hok & ->)|(e & -> & Hno)].
  2:{ eexists _, _. split; [reflexivity|]. cbn [App.success App.error].
      split; [split; discriminate|]. split; [discriminate|].
      intros [?|?]; [contradiction|discriminate]. }
  destruct (App.find_page _ page_id) as [page|].
  2:{ eexists _, _. split; [reflexivity|]. cbn [App.success App.error].
      split; [split; discriminate|]. split; [discriminate|].
      intros [?|?]; [contradiction|discriminate]. }
  rewrite run_bind.
  match goal with
  | |- context [Robot.edit_status_page http _ page_id (Some ?members) ∅ ?st1] =>
      destruct (edit_status_page_run (Spec.robot_service cfg) page_id members st1)
        as [(_ & ->)|[(Hid & Hacc & ->)|(Hid & Hrej & e & ->)]];
      pose proof (edit_form_id (Spec.robot_service cfg) page_id members) as [Hform _]
  end.
  - eexists _, _. split; [reflexivity|]. cbn [App.success App.error].
    split; [split; discriminate|]. split; [discriminate|].
    intros [?|?]; [contradiction|discriminate].
  - eexists _, _. split; [reflexivity|]. cbn [App.success App.error].
    split; [split; reflexivity|]. split.
    + intros _. eexists _, _. cbn [trace]. rewrite <- app_assoc.
      split; [reflexivity|]. split; [now exists body|]. split; [exact Hacc|exact Hform].
    + intros [?|?]; [contradiction|discriminate].
  - eexists _, _. split; [reflexivity|]. cbn [App.success App.error].
    split; [split; discriminate|]. split; [discriminate|].
    intros [?|?]; [contradiction|discriminate].
Qed.


(** X20. The route that lists the monitors of an Uptime Robot status page
    always answers, with one of the codes 200, 404 and 500.  It answers 200
    only if the listing succeeded and holds a page with the given id, and then
    with the monitors of the first such page; 404 only if the listing
    succeeded and no page has the given id; and 500 only if the service could
    not be built or the listing failed.  An answer other than 200 has an
    error and no monitors. *)
Theorem page_monitors_route_codes (page_id : Z) (st : State) :
  exists (answer : App.PageMonitorsResponse) (st' : State),
    App.get_uptime_robot_status_page_monitors cfg http page_id st = (Ok answer, st') /\
    let listing :=
      (service ← App.get_uptime_robot_service cfg;
       Robot.get_status_pages http service) st in
    st' = snd listing /\
    (App.pm_code answer = 200 \/ App.pm_code answer = 404 \/ App.pm_code answer = 500) /\
    (App.pm_code answer = 200 ->
     App.pm_error answer = None /\
     exists pages before page after,
       fst listing = Ok pages /\
       pages = before ++ page :: after /\
       Robot.psp_id page = Some page_id /\
       (forall p, p ∈ before -> Robot.psp_id p <> Some page_id) /\
       App.pm_monitors answer = default [] (Robot.psp_monitors page)) /\
    (App.pm_code answer = 404 ->
     exists pages,
       fst listing = Ok pages /\
       forall p, p ∈ pages -> Robot.psp_id p <> Some page_id) /\
    (App.pm_code answer = 500 -> exists e, fst listing = Raise e) /\
    (App.pm_code answer <> 200 ->
     App.pm_error answer <> None /\ App.pm_monitors answer = []).
Proof.
  unfold App.get_uptime_robot_status_page_monitors.
  rewrite run_try_except, !run_bind.
  destruct (App.get_uptime_robot_service cfg st) as [[service|e] st0].
  2:{ eexists _, _. split; [reflexivity|]. cbn.
      split; [reflexivity|]. split; [auto|]. split; [discriminate|].
      split; [discriminate|]. split; [eauto|]. split; [discriminate|reflexivity]. }
  rewrite ?run_bind.
  destruct (Robot.get_status_pages http service st0) as [[pages|e] st1].
  2:{ eexists _, _. split; [reflexivity|]. cbn.
      split; [reflexivity|]. split; [auto|]. split; [discriminate|].
      split; [discriminate|]. split; [eauto|]. split; [discriminate|reflexivity]. }
  unfold App.find_page.
  destruct (List.find _ pages) as [page|] eqn:Hfind.
  - eexists _, _. split; [reflexivity|]. cbn.
    split; [reflexivity|]. split; [auto|]. split; [|split; [discriminate|]].
    + intros _. split; [reflexivity|].
      assert (exists before after,
                pages = before ++ page :: after /\
                Robot.psp_id page = Some page_id /\
                forall p, p ∈ before -> Robot.psp_id p <> Some page_id)
        as (before & after & Hsplit & Hpage & Hbefore).
      { clear -Hfind. induction pages as [|p pages IH]; [discriminate|].
        cbn in Hfind. destruct (bool_decide (Robot.psp_id p = Some page_id)) eqn:Hp.
        - injection Hfind as ->. apply bool_decide_eq_true_1 in Hp.
          exists [], pages. split; [reflexivity|]. split; [exact Hp|].
          intros q Hq. inversion Hq.
        - apply bool_decide_eq_false_1 in Hp.
          destruct (IH Hfind) as (before & after & -> & Hpage & Hbefore).
          exists (p :: before), after. split; [reflexivity|]. split; [exact Hpage|].
          intros q Hq. apply elem_of_cons in Hq as [->|Hq]; auto. }
      exists pages, before, page, after. auto.
    + split; [discriminate|]. intros Hne. contradiction.
  - eexists _, _. split; [reflexivity|]. cbn.
    split; [reflexivity|]. split; [auto|]. split; [discriminate|]. split.
    + intros _. exists pages. split; [reflexivity|].
      intros p Hp. apply list_elem_of_In in Hp.
      pose proof (List.find_none _ _ Hfind p Hp) as Hno. cbn in Hno.
      now apply bool_decide_eq_false_1 in Hno.
    + split; [discriminate|]. intros _. split; [discriminate|reflexivity].
Qed.
End MoreRoutes.

